(** * nf-core/viralintegration launcher: a model of [wf/entrypoint.py]

    The entry point provisions a shared volume ([initialize]), stages the
    pipeline into the volume, builds the Nextflow command line, runs it as a
    child process and uploads the Nextflow log in a [finally] block
    ([nextflow_runtime]); [nf_nf_core_viralintegration] chains the two.

    Everything the module does goes through a collaborator (the process
    environment, [requests], [shutil], [subprocess], the latch SDK), so the
    model is a small trace-and-error monad over a record of collaborators,
    and the properties are statements about traces and outcomes. *)

From Stdlib Require Import ZArith List String Lia.
From stdpp Require Import base strings gmap pretty list.

#[local] Set Warnings "-register-all,-clear-no-such-hyp".
#[local] Open Scope Z_scope.

(** ** Workflow parameters *)

(** [LatchFile] and [LatchDir] are SDK types; the launcher only ever hands
    them to [get_flag], which renders the reference they carry. *)
Record LatchFile := mkLatchFile { file_ref : string }.
Record LatchDir := mkLatchDir { dir_ref : string }.

(** The pipeline parameters of [nextflow_runtime], in the order of its
    signature (lines 50-61); [pvc_name] is passed separately. *)
Record RunParameters := mkRunParameters {
  input : LatchFile;
  viral_fasta : LatchFile;
  outdir : LatchDir;
  email : option string;
  multiqc_title : option string;
  genome : option string;
  fasta : option LatchFile;
  gtf : option LatchFile;
  multiqc_methods_description : option string;
  min_reads : Z;
  max_hits : Z;
  remove_duplicates : bool
}.

(** A Python value as [get_flag] may receive it from this module. *)
Inductive pyval :=
| PNone
| PBool (b : bool)
| PInt (z : Z)
| PStr (s : string)
| PFile (f : LatchFile)
| PDir (d : LatchDir).

Definition of_opt {A} (inj : A -> pyval) (o : option A) : pyval :=
  match o with
  | None => PNone
  | Some a => inj a
  end.

(** ** Flag translation *)

Definition flag (name : string) : string := "--" +:+ name.

(** Modelled from the spec: [get_flag] is imported from
    [latch_cli.nextflow.workflow] and its body is not among the sources.
    The translation rule gives zero tokens for an absent value, the two
    tokens [--name value] for a present non-boolean value, and the runner's
    boolean encoding for a boolean. That encoding is a convention of the
    runner, so it is the parameter [bool_flag]. *)
Definition get_flag (bool_flag : string -> bool -> list string)
    (name : string) (val : pyval) : list string :=
  match val with
  | PNone => []
  | PBool b => bool_flag name b
  | PInt z => [flag name; pretty z]
  | PStr s => [flag name; s]
  | PFile f => [flag name; file_ref f]
  | PDir d => [flag name; dir_ref d]
  end.

(** [Path("/nf-workdir")] and [Path.__truediv__] with a relative child. *)
Definition shared_dir : string := "/nf-workdir".

Definition path_div (p child : string) : string := p +:+ "/" +:+ child.

(** The fixed head of the command line (lines 87-95). *)
Definition cmd_base : list string :=
  [ "/root/nextflow"; "run"; path_div shared_dir "main.nf";
    "-work-dir"; shared_dir; "-profile"; "docker"; "-c"; "latch.config" ].

(** [cmd] of [nextflow_runtime] (lines 86-108), one [get_flag] splice per
    line of the source, in the order of the source. *)
Definition cmd (bool_flag : string -> bool -> list string)
    (p : RunParameters) : list string :=
  cmd_base
    ++ get_flag bool_flag "input" (PFile (input p))
    ++ get_flag bool_flag "viral_fasta" (PFile (viral_fasta p))
    ++ get_flag bool_flag "outdir" (PDir (outdir p))
    ++ get_flag bool_flag "email" (of_opt PStr (email p))
    ++ get_flag bool_flag "multiqc_title" (of_opt PStr (multiqc_title p))
    ++ get_flag bool_flag "min_reads" (PInt (min_reads p))
    ++ get_flag bool_flag "max_hits" (PInt (max_hits p))
    ++ get_flag bool_flag "remove_duplicates" (PBool (remove_duplicates p))
    ++ get_flag bool_flag "genome" (of_opt PStr (genome p))
    ++ get_flag bool_flag "fasta" (of_opt PFile (fasta p))
    ++ get_flag bool_flag "gtf" (of_opt PFile (gtf p))
    ++ get_flag bool_flag "multiqc_methods_description"
         (of_opt PStr (multiqc_methods_description p)).

(** *** Parameters as data, to talk about orders of flag groups *)

Inductive param :=
| Pinput | Pviral_fasta | Poutdir | Pemail | Pmultiqc_title | Pgenome
| Pfasta | Pgtf | Pmultiqc_methods_description
| Pmin_reads | Pmax_hits | Premove_duplicates.

#[global] Instance param_eq_dec : EqDecision param.
Proof. solve_decision. Defined.

Definition param_name (q : param) : string :=
  match q with
  | Pinput => "input"
  | Pviral_fasta => "viral_fasta"
  | Poutdir => "outdir"
  | Pemail => "email"
  | Pmultiqc_title => "multiqc_title"
  | Pgenome => "genome"
  | Pfasta => "fasta"
  | Pgtf => "gtf"
  | Pmultiqc_methods_description => "multiqc_methods_description"
  | Pmin_reads => "min_reads"
  | Pmax_hits => "max_hits"
  | Premove_duplicates => "remove_duplicates"
  end.

Definition param_value (p : RunParameters) (q : param) : pyval :=
  match q with
  | Pinput => PFile (input p)
  | Pviral_fasta => PFile (viral_fasta p)
  | Poutdir => PDir (outdir p)
  | Pemail => of_opt PStr (email p)
  | Pmultiqc_title => of_opt PStr (multiqc_title p)
  | Pgenome => of_opt PStr (genome p)
  | Pfasta => of_opt PFile (fasta p)
  | Pgtf => of_opt PFile (gtf p)
  | Pmultiqc_methods_description =>
      of_opt PStr (multiqc_methods_description p)
  | Pmin_reads => PInt (min_reads p)
  | Pmax_hits => PInt (max_hits p)
  | Premove_duplicates => PBool (remove_duplicates p)
  end.

(** The flag group one parameter contributes. *)
Definition flag_group (bool_flag : string -> bool -> list string)
    (p : RunParameters) (q : param) : list string :=
  get_flag bool_flag (param_name q) (param_value p q).

(** A command line that lists the groups in a given order. *)
Definition cmd_in_order (bool_flag : string -> bool -> list string)
    (order : list param) (p : RunParameters) : list string :=
  cmd_base ++ concat (map (flag_group bool_flag p) order).

(** The order in which [nextflow_runtime] declares its parameters. *)
Definition declared_order : list param :=
  [ Pinput; Pviral_fasta; Poutdir; Pemail; Pmultiqc_title; Pgenome; Pfasta;
    Pgtf; Pmultiqc_methods_description; Pmin_reads; Pmax_hits;
    Premove_duplicates ].

(** The order of the [get_flag] lines, which is also the order of the
    keyword arguments at the call in [nf_nf_core_viralintegration]. *)
Definition splice_order : list param :=
  [ Pinput; Pviral_fasta; Poutdir; Pemail; Pmultiqc_title; Pmin_reads;
    Pmax_hits; Premove_duplicates; Pgenome; Pfasta; Pgtf;
    Pmultiqc_methods_description ].

(** The optional parameters, and when one is absent. *)
Definition optional (q : param) : bool :=
  match q with
  | Pemail | Pmultiqc_title | Pgenome | Pfasta | Pgtf
  | Pmultiqc_methods_description => true
  | _ => false
  end.

Definition absent (p : RunParameters) (q : param) : Prop :=
  param_value p q = PNone.

(** The value tokens of the group that [get_flag] builds for one value. *)
Definition value_texts (bool_flag : string -> bool -> list string)
    (name : string) (v : pyval) : list string :=
  match v with
  | PNone => []
  | PBool b => bool_flag name b
  | PInt z => [pretty z]
  | PStr s => [s]
  | PFile f => [file_ref f]
  | PDir d => [dir_ref d]
  end.

(** The texts that the caller supplies and that reach the command line as
    value tokens (for the boolean: whatever its encoding emits). *)
Definition opt_text {A} (f : A -> string) (o : option A) : list string :=
  match o with
  | None => []
  | Some a => [f a]
  end.

Definition supplied_texts (bool_flag : string -> bool -> list string)
    (p : RunParameters) : list string :=
  [ file_ref (input p); file_ref (viral_fasta p); dir_ref (outdir p) ]
    ++ opt_text id (email p)
    ++ opt_text id (multiqc_title p)
    ++ [ pretty (min_reads p); pretty (max_hits p) ]
    ++ bool_flag "remove_duplicates" (remove_duplicates p)
    ++ opt_text id (genome p)
    ++ opt_text file_ref (fasta p)
    ++ opt_text file_ref (gtf p)
    ++ opt_text id (multiqc_methods_description p).

(** ** Directory staging: [shutil.copytree]

    The source tree is what [os.scandir] sees under [/root]: regular files,
    directories, symbolic links and special files (named pipes). A link
    carries three things: the text [os.readlink] returns; whether
    [os.path.exists] holds of that text, which Python resolves from the
    working directory of the process and not from the directory of the
    link; and what the link resolves to when it is followed, [None] for a
    link that dangles. For a link with an absolute target the last two
    agree; for a relative link they need not. *)
Inductive node :=
| File (data : string)
| Dir (entries : list (string * node))
| Symlink (linkto : string) (text_exists : bool) (referent : option node)
| Special.

(** Induction on source trees that reaches into the entries of a directory
    and through a link. *)
Section node_induction.
Variable P : node -> Prop.
Hypothesis HFile : forall data, P (File data).
Hypothesis HDir :
  forall es, Forall (fun e : string * node => P (snd e)) es -> P (Dir es).
Hypothesis HDangling : forall linkto te, P (Symlink linkto te None).
Hypothesis HLink :
  forall linkto te r, P r -> P (Symlink linkto te (Some r)).
Hypothesis HSpecial : P Special.

Fixpoint node_nested_ind (n : node) : P n :=
  match n with
  | File data => HFile data
  | Dir es =>
      HDir es
        ((fix go (es : list (string * node))
            : Forall (fun e : string * node => P (snd e)) es :=
            match es with
            | [] => @List.Forall_nil _ _
            | e :: rest =>
                @List.Forall_cons _ _ e rest (node_nested_ind (snd e)) (go rest)
            end) es)
  | Symlink linkto te None => HDangling linkto te
  | Symlink linkto te (Some r) => HLink linkto te r (node_nested_ind r)
  | Special => HSpecial
  end.
End node_induction.

(** The working directory. The call leaves [symlinks] at its default
    [False], so the copy creates regular files and directories only. *)
Inductive dnode :=
| DFile (data : string)
| DDir (entries : list (string * dnode)).

Abbreviation dentries := (list (string * dnode)).

(** The [OSError]s the copy of one entry can raise. *)
Inductive oserror :=
| IsADirectoryError
| FileExistsError
| FileNotFoundError
| SpecialFileError.

(** One item of [shutil.Error]: [(srcname, dstname, why)]. *)
Definition copy_error : Type := string * string * oserror.

Fixpoint alist_lookup {A} (k : string) (l : list (string * A)) : option A :=
  match l with
  | [] => None
  | (k', v) :: rest => if decide (k = k') then Some v else alist_lookup k rest
  end.

Fixpoint alist_set {A} (k : string) (v : A) (l : list (string * A))
    : list (string * A) :=
  match l with
  | [] => [(k, v)]
  | (k', v') :: rest =>
      if decide (k = k') then (k, v) :: rest else (k', v') :: alist_set k v rest
  end.

(** Writing back what the copy of one entry left at [name]: [None] when the
    entry was skipped or failed before anything was created. *)
Definition put (name : string) (new : option dnode) (dst : dentries)
    : dentries :=
  match new with
  | Some d => alist_set name d dst
  | None => dst
  end.

Definition os_path_join (dir name : string) : string := path_div dir name.

(** The [for srcentry in entries] loop of [_copytree] over the entries of
    one directory, with the copy of one entry as [copy_child]: entries that
    [ignored_names] lists are skipped, the others are copied in turn into
    the directory as the previous ones left it, and the errors are
    collected. *)
Definition copy_loop
    (copy_child : string -> node -> option dnode
                  -> option dnode * list copy_error)
    (ignored_names : list string)
    : list (string * node) -> dentries -> dentries * list copy_error :=
  fix loop (es : list (string * node)) (dst : dentries) :=
    match es with
    | [] => (dst, [])
    | (name, child) :: rest =>
        if bool_decide (name ∈ ignored_names) then loop rest dst
        else
          let c := copy_child name child (alist_lookup name dst) in
          let r := loop rest (put name (fst c) dst) in
          (fst r, snd c ++ snd r)
    end.

Section Copytree.
(** The [ignore] callback and the [ignore_dangling_symlinks] flag of
    [shutil.copytree]; [symlinks=False], [copy_function=copy2] and
    [dirs_exist_ok=True] are fixed as in the call. *)
Variable ignore : string -> list string -> list string.
Variable ignore_dangling_symlinks : bool.

(** The body of the loop for one entry [name], given what is at [dstname]
    before ([old]); returns what is there afterwards and the errors
    collected.

    A link ([symlinks] is false): if [os.path.exists(linkto)] is false and
    the flag is set, the entry is skipped; otherwise it is followed, as a
    directory ([srcentry.is_dir()], the recursive [copytree]) or through
    [copy2], which fails with [FileNotFoundError] when the link dangles.
    [followed] says that the node is what a link resolved to, where no
    test is made any more.

    A directory: [os.makedirs(dst, exist_ok=True)], which fails on an
    existing file, then the loop.

    A file, through [copy2(src, dst)]: when [dst] is an existing
    directory the file is written inside it under its own base name, and
    that fails only if a directory is there; otherwise it is written at
    [dst], over an existing file if there is one. *)
Fixpoint copy_entry (followed : bool) (srcname dstname name : string)
    (n : node) (old : option dnode) {struct n}
    : option dnode * list copy_error :=
  match n with
  | Symlink linkto text_exists referent =>
      if negb followed && negb text_exists && ignore_dangling_symlinks
      then (old, [])
      else
        match referent with
        | None => (old, [(srcname, dstname, FileNotFoundError)])
        | Some r => copy_entry true srcname dstname name r old
        end
  | Dir entries =>
      match old with
      | Some (DFile _) => (old, [(srcname, dstname, FileExistsError)])
      | _ =>
          let r :=
            copy_loop
              (fun name child o =>
                 copy_entry false (os_path_join srcname name)
                   (os_path_join dstname name) name child o)
              (ignore srcname (map fst entries)) entries
              (match old with Some (DDir d) => d | _ => [] end) in
          (Some (DDir (fst r)), snd r)
      end
  | File data =>
      match old with
      | Some (DDir d) =>
          match alist_lookup name d with
          | Some (DDir _) => (old, [(srcname, dstname, IsADirectoryError)])
          | _ => (Some (DDir (alist_set name (DFile data) d)), [])
          end
      | _ => (Some (DFile data), [])
      end
  | Special => (old, [(srcname, dstname, SpecialFileError)])
  end.

(** [shutil.copytree(src, dst, ...)] on an existing directory [dst]:
    the new content of [dst] and the list that [Error] would carry. *)
Definition copytree (src dst : string) (entries : list (string * node))
    (old : dentries) : dentries * list copy_error :=
  copy_loop
    (fun name child o =>
       copy_entry false (os_path_join src name) (os_path_join dst name)
         name child o)
    (ignore src (map fst entries)) entries old.
End Copytree.

(** [ignore_list] of [nextflow_runtime] (lines 66-76). *)
Definition ignore_list : list string :=
  [ "latch"; ".latch"; "nextflow"; ".nextflow"; "work"; "results";
    "miniconda"; "anaconda3"; "mambaforge" ].

(** The staging call (lines 78-84): [ignore=lambda src, names: ignore_list],
    [ignore_dangling_symlinks=True]. *)
Definition stage_tree (root : list (string * node)) (old : dentries)
    : dentries * list copy_error :=
  copytree (fun _ _ => ignore_list) true "/root" shared_dir root old.

(** No entry of the tree, at any depth, bears a name of [ignore_list]. *)
Fixpoint denylist_free (d : dnode) : bool :=
  match d with
  | DFile _ => true
  | DDir es =>
      forallb (fun e : string * dnode =>
                 let (name, c) := e in
                 negb (bool_decide (name ∈ ignore_list)) && denylist_free c)
        es
  end.

(** The same, entry by entry, for the content of a directory. *)
Definition clean_entries (es : dentries) : Prop :=
  Forall (fun e : string * dnode =>
            (fst e ∉ ignore_list) /\ denylist_free (snd e) = true) es.

(** A link that dangles: followed, it resolves to nothing. *)
Fixpoint dangling (n : node) : bool :=
  match n with
  | Symlink _ _ None => true
  | Symlink _ _ (Some r) => dangling r
  | _ => false
  end.

(** An entry that is a link whose text fails [os.path.exists]: the links
    that the staging call, with [ignore_dangling_symlinks=True], skips. *)
Definition text_missing (n : node) : bool :=
  match n with
  | Symlink _ text_exists _ => negb text_exists
  | _ => false
  end.

(** A source tree without the entries that are such links, at every
    depth. *)
Definition prune_with (prune : node -> node)
    : list (string * node) -> list (string * node) :=
  fix go (es : list (string * node)) :=
    match es with
    | [] => []
    | (name, c) :: rest =>
        if text_missing c then go rest else (name, prune c) :: go rest
    end.

Fixpoint prune (n : node) : node :=
  match n with
  | Dir es => Dir (prune_with prune es)
  | Symlink l te (Some r) => Symlink l te (Some (prune r))
  | _ => n
  end.


(** ** Exceptions, observable events and collaborators *)

Inductive exn :=
| RuntimeError (msg : string)
| HTTPError (status : Z)
| JSONDecodeError
| KeyError (key : string)
| ShutilError (errors : list copy_error)
| CalledProcessError (returncode : Z) (cmd : list string)
| TypeError
| Raised (what : string).

Inductive result (A : Type) :=
| Ok (a : A)
| Raise (e : exn).
Arguments Ok {A} a.
Arguments Raise {A} e.

(** What the module does to the outside, in program order. The text of a
    [print] is recorded without its line terminator. *)
Inductive event :=
| EvPrint (text : string)
| EvHttpPost (url : string) (headers : gmap string string)
    (json : gmap string Z)
| EvCopytree (src dst : string)
| EvSpawn (cmd : list string) (env : gmap string string) (cwd : string)
| EvExists (path : string)
| EvGetExecutionName
| EvUpload (local remote : string).

(** What [Response.json()] can return: any JSON value, as the Python
    object it decodes to ([None], [bool], a number, [str], [list],
    [dict]). *)
Inductive json :=
| JNull
| JBool (b : bool)
| JNumber (literal : string)
| JString (s : string)
| JArray (items : list json)
| JObject (members : list (string * json)).

(** A [requests.Response]: the status code and the decoded body, [None]
    when the body is not JSON. *)
Record Response := mkResponse {
  status_code : Z;
  json_body : option json
}.

(** Everything outside the module that its behaviour depends on. *)
Record World := mkWorld {
  (** [os.environ] *)
  os_environ : gmap string string;
  (** [requests.post(url, headers=..., json=...)] *)
  requests_post :
    string -> gmap string string -> gmap string Z -> result Response;
  (** the content of [/root] *)
  root_tree : list (string * node);
  (** the child process: its exit code and what it leaves in the working
      directory, from [cmd], [env], [cwd] and the directory as staged *)
  child_process :
    list string -> gmap string string -> string -> dentries -> Z * dentries;
  (** [latch_cli.nextflow.utils._get_execution_name()] *)
  _get_execution_name : result (option string);
  (** [LPath(remote).upload_from(local)] *)
  upload_from : string -> string -> result unit;
  (** the runner's boolean flag syntax, used by [get_flag] *)
  bool_flag : string -> bool -> list string;
  (** [latch_cli.utils.urljoins] *)
  urljoins : list string -> string
}.

(** ** The monad: a trace, the working directory, a result or an exception *)

Record Run (A : Type) := mkRun {
  trace : list event;
  workdir : dentries;
  outcome : result A
}.
Arguments mkRun {A} trace workdir outcome.
Arguments trace {A} r.
Arguments workdir {A} r.
Arguments outcome {A} r.

Definition M (A : Type) : Type := dentries -> Run A.

Definition ret {A} (a : A) : M A := fun s => mkRun [] s (Ok a).

Definition raise {A} (e : exn) : M A := fun s => mkRun [] s (Raise e).

Definition bind {A B} (m : M A) (f : A -> M B) : M B :=
  fun s =>
    let r := m s in
    match outcome r with
    | Ok a =>
        let r' := f a (workdir r) in
        mkRun (trace r ++ trace r') (workdir r') (outcome r')
    | Raise e => mkRun (trace r) (workdir r) (Raise e)
    end.

#[global] Instance M_ret : MRet M := @ret.
#[global] Instance M_bind : MBind M := fun A B f m => bind m f.

(** One interaction with a collaborator that leaves the directory alone. *)
Definition call {A} (ev : event) (r : result A) : M A :=
  fun s => mkRun [ev] s r.

Definition print (text : string) : M unit := call (EvPrint text) (Ok tt).

(** Python's [try: body finally: fin]. The [finally] suite runs whatever
    the outcome of [body]; when it raises, that exception propagates in
    place of the outcome of [body] (Python keeps the earlier exception
    only as [__context__]); when it completes, the outcome of [body]
    stands. *)
Definition try_finally {A} (body : M A) (fin : M unit) : M A :=
  fun s =>
    let r := body s in
    let r' := fin (workdir r) in
    mkRun (trace r ++ trace r') (workdir r')
      (match outcome r' with
       | Raise e' => Raise e'
       | Ok _ => outcome r
       end).

(** ** [initialize] *)

Definition provision_url : string :=
  "http://nf-dispatcher-service.flyte.svc.cluster.local/provision-storage".

(** [Response.raise_for_status]: client and server error statuses raise. *)
Definition is_error_status (status : Z) : bool :=
  (400 <=? status) && (status <? 600).

Definition raise_for_status (resp : Response) : M unit :=
  if is_error_status (status_code resp)
  then raise (HTTPError (status_code resp))
  else ret tt.

(** [resp.json()["name"]]: [json()] raises on a body that is not JSON;
    the subscript raises [KeyError] on a [dict] without the key and
    [TypeError] on every value that is not a [dict] (a [list] or a [str]
    takes no [str] index, the others take none). *)
Definition json_name (resp : Response) : M json :=
  match json_body resp with
  | None => raise JSONDecodeError
  | Some (JObject members) =>
      match alist_lookup "name" members with
      | None => raise (KeyError "name")
      | Some v => ret v
      end
  | Some _ => raise TypeError
  end.

(** [initialize] is a task ([@custom_task]) declared [-> str]: where the
    task ends, flytekit converts what the function returned to the
    declared type, and refuses a value that is not a [str] with its
    [TypeTransformerFailedError], a [TypeError]. *)
Definition returns_str (v : json) : M string :=
  match v with
  | JString s => ret s
  | _ => raise TypeError
  end.

(** [return resp.json()["name"]] of the task (line 44). *)
Definition returned_name (resp : Response) : M string :=
  v ← json_name resp;
  returns_str v.

(** [headers] and the [json=] argument of the request (lines 31, 37-39). *)
Definition headers (token : string) : gmap string string :=
  {[ "Authorization" := "Latch-Execution-Token " +:+ token ]}.

Definition provision_json : gmap string Z := {[ "storage_gib" := 100 ]}.

Definition initialize (w : World) : M string :=
  match os_environ w !! "FLYTE_INTERNAL_EXECUTION_ID" with
  | None => raise (RuntimeError "failed to get execution token")
  | Some token =>
      print "Provisioning shared storage volume... " ;;
      resp ← call (EvHttpPost provision_url (headers token) provision_json)
                (requests_post w provision_url (headers token) provision_json);
      raise_for_status resp ;;
      print "Done." ;;
      returned_name resp
  end.

(** ** [nextflow_runtime] *)

(** The staging step: the copy has its effect on the directory even when
    it ends by raising [shutil.Error]. *)
Definition stage (w : World) : M unit :=
  fun s =>
    let r := stage_tree (root_tree w) s in
    mkRun [EvCopytree "/root" shared_dir] (fst r)
      (match snd r with
       | [] => Ok tt
       | _ :: _ => Raise (ShutilError (snd r))
       end).

(** [env] (lines 114-120): [os.environ] with four keys set on top. *)
Definition env (environ : gmap string string) (pvc_name : string)
    : gmap string string :=
  <[ "NXF_DISABLE_CHECK_LATEST" := "true" ]>
    (<[ "K8S_STORAGE_CLAIM_NAME" := pvc_name ]>
       (<[ "NXF_OPTS" := "-Xms2048M -Xmx8G -XX:ActiveProcessorCount=4" ]>
          (<[ "NXF_HOME" := "/root/.nextflow" ]> environ))).

(** The keys that [env] sets. *)
Definition overlay_keys : list string :=
  [ "NXF_HOME"; "NXF_OPTS"; "K8S_STORAGE_CLAIM_NAME";
    "NXF_DISABLE_CHECK_LATEST" ].

(** [subprocess.run(cmd, env=env, check=True, cwd=...)]: the child runs to
    its end, and [check=True] turns a non-zero exit code into
    [CalledProcessError]. *)
Definition subprocess_run (w : World) (cmd : list string)
    (env : gmap string string) (cwd : string) : M unit :=
  fun s =>
    let r := child_process w cmd env cwd s in
    mkRun [EvSpawn cmd env cwd] (snd r)
      (if decide (fst r = 0) then Ok tt
       else Raise (CalledProcessError (fst r) cmd)).

(** The [try] suite (lines 64-126). *)
Definition launch_body (w : World) (pvc_name : string) (p : RunParameters)
    : M unit :=
  stage w ;;
  let cmd := cmd (bool_flag w) p in
  print "Launching Nextflow Runtime" ;;
  print (String.concat " " cmd) ;;
  print "" ;;
  subprocess_run w cmd (env (os_environ w) pvc_name) shared_dir.

Definition nextflow_log : string := path_div shared_dir ".nextflow.log".

(** The path of [remote] (lines 136-142). *)
Definition remote_log (w : World) (name : string) : string :=
  urljoins w [ "latch:///your_log_dir/nf_nf_core_viralintegration";
               name; "nextflow.log" ].

(** [nextflow_log.exists()], a probe of the working directory. *)
Definition log_exists : M bool :=
  fun s =>
    mkRun [EvExists nextflow_log] s
      (Ok (bool_decide (is_Some (alist_lookup ".nextflow.log" s)))).

(** The [finally] suite (lines 128-144). *)
Definition finalize (w : World) : M unit :=
  print "" ;;
  present ← log_exists;
  if present : bool then
    name ← call EvGetExecutionName (_get_execution_name w);
    match name with
    | None => print "Skipping logs upload, failed to get execution name"
    | Some name =>
        let remote := remote_log w name in
        print ("Uploading .nextflow.log to " +:+ remote) ;;
        call (EvUpload nextflow_log remote) (upload_from w remote nextflow_log)
    end
  else ret tt.

Definition nextflow_runtime (w : World) (pvc_name : string)
    (p : RunParameters) : M unit :=
  try_finally (launch_body w pvc_name p) (finalize w).

(** ** The workflow *)

Definition default_min_reads : Z := 5.
Definition default_max_hits : Z := 50.
Definition default_remove_duplicates : bool := true.

Definition nf_nf_core_viralintegration (w : World) (p : RunParameters)
    : M unit :=
  pvc_name ← initialize w;
  nextflow_runtime w pvc_name p.

(** Predicates on events. *)
Definition is_spawn (ev : event) : bool :=
  match ev with EvSpawn _ _ _ => true | _ => false end.

Definition is_copytree (ev : event) : bool :=
  match ev with EvCopytree _ _ => true | _ => false end.

(** The calls of [requests.post]. *)
Definition is_post (ev : event) : bool :=
  match ev with EvHttpPost _ _ _ => true | _ => false end.

(** ** Concrete inputs used by the examples *)

(** One boolean syntax a runner may have: the bare flag for [True], nothing
    for [False]. The theorems below hold for every [bool_flag]. *)
Definition bare_when_true (name : string) (b : bool) : list string :=
  if b then [flag name] else [].

(** Required inputs only, the three defaulted parameters at their
    defaults. *)
Definition plain_params : RunParameters :=
  {| input := mkLatchFile "latch:///samplesheet.csv";
     viral_fasta := mkLatchFile "latch:///virus.fasta";
     outdir := mkLatchDir "latch:///results";
     email := None;
     multiqc_title := None;
     genome := None;
     fasta := None;
     gtf := None;
     multiqc_methods_description := None;
     min_reads := default_min_reads;
     max_hits := default_max_hits;
     remove_duplicates := default_remove_duplicates |}.

(** The same with a genome name. *)
Definition genome_params : RunParameters :=
  {| input := mkLatchFile "latch:///samplesheet.csv";
     viral_fasta := mkLatchFile "latch:///virus.fasta";
     outdir := mkLatchDir "latch:///results";
     email := None;
     multiqc_title := None;
     genome := Some "GRCh38";
     fasta := None;
     gtf := None;
     multiqc_methods_description := None;
     min_reads := default_min_reads;
     max_hits := default_max_hits;
     remove_duplicates := default_remove_duplicates |}.

(** A source tree with an entry script, a denylisted directory at the top,
    one nested in an included directory, and a dangling link. *)
Definition sample_root : list (string * node) :=
  [ ("main.nf", File "workflow {}");
    ("work", Dir [ ("a1", File "cached") ]);
    ("bin", Dir [ ("run.sh", File "#!/bin/sh");
                  ("results", Dir [ ("old.txt", File "stale") ]) ]);
    ("broken", Symlink "/tmp/gone" false None) ].

(** A child that writes its log and exits with [code]. *)
Definition logging_child (code : Z) (_ : list string)
    (_ : gmap string string) (_ : string) (s : dentries) : Z * dentries :=
  (code, alist_set ".nextflow.log" (DFile "N E X T F L O W") s).

Definition sample_urljoins (parts : list string) : string :=
  String.concat "/" parts.

Definition sample_environ : gmap string string :=
  {[ "FLYTE_INTERNAL_EXECUTION_ID" := "tok"; "HOME" := "/root" ]}.

(** The provisioning service answers [status] with a volume name. *)
Definition answering (status : Z) (_ : string) (_ : gmap string string)
    (_ : gmap string Z) : result Response :=
  Ok (mkResponse status (Some (JObject [ ("name", JString "pvc-1") ]))).

(** A world in which everything succeeds. *)
Definition happy_world : World :=
  {| os_environ := sample_environ;
     requests_post := answering 200;
     root_tree := sample_root;
     child_process := logging_child 0;
     _get_execution_name := Ok (Some "exec-1");
     upload_from := fun _ _ => Ok tt;
     bool_flag := bare_when_true;
     urljoins := sample_urljoins |}.

(** The child exits 1 and the execution name lookup raises. *)
Definition lookup_fails_world : World :=
  {| os_environ := sample_environ;
     requests_post := answering 200;
     root_tree := sample_root;
     child_process := logging_child 1;
     _get_execution_name := Raise (Raised "execution name lookup failed");
     upload_from := fun _ _ => Ok tt;
     bool_flag := bare_when_true;
     urljoins := sample_urljoins |}.

(** The child exits 2 and the log upload raises. *)
Definition upload_fails_world : World :=
  {| os_environ := sample_environ;
     requests_post := answering 200;
     root_tree := sample_root;
     child_process := logging_child 2;
     _get_execution_name := Ok (Some "exec-1");
     upload_from := fun _ _ => Raise (Raised "upload failed");
     bool_flag := bare_when_true;
     urljoins := sample_urljoins |}.

(** The provisioning service answers 500. *)
Definition http_500_world : World :=
  {| os_environ := sample_environ;
     requests_post := answering 500;
     root_tree := sample_root;
     child_process := logging_child 0;
     _get_execution_name := Ok (Some "exec-1");
     upload_from := fun _ _ => Ok tt;
     bool_flag := bare_when_true;
     urljoins := sample_urljoins |}.

(** The provisioning service answers 300 (Multiple Choices). *)
Definition redirect_300_world : World :=
  {| os_environ := sample_environ;
     requests_post := answering 300;
     root_tree := sample_root;
     child_process := logging_child 0;
     _get_execution_name := Ok (Some "exec-1");
     upload_from := fun _ _ => Ok tt;
     bool_flag := bare_when_true;
     urljoins := sample_urljoins |}.

(** No execution token in the environment. *)
Definition no_token_world : World :=
  {| os_environ := {[ "HOME" := "/root" ]};
     requests_post := answering 200;
     root_tree := sample_root;
     child_process := logging_child 0;
     _get_execution_name := Ok (Some "exec-1");
     upload_from := fun _ _ => Ok tt;
     bool_flag := bare_when_true;
     urljoins := sample_urljoins |}.

(** ** Further notions used by the properties of staging and of the run *)

(** The content of the regular file that a node is or, followed, resolves
    to. *)
Fixpoint resolved_file (n : node) : option string :=
  match n with
  | File data => Some data
  | Symlink _ _ (Some r) => resolved_file r
  | _ => None
  end.

(** The content that the copy writes for an entry that is a regular file
    or a link, with a text that exists, that resolves to one ([copy2]
    follows links). *)
Definition file_content (n : node) : option string :=
  match n with
  | File data => Some data
  | Symlink _ true (Some r) => resolved_file r
  | _ => None
  end.

(** Names are unique within every directory of the tree, as they are in
    what [os.scandir] lists. *)
Fixpoint unique_names (n : node) : bool :=
  match n with
  | Dir es =>
      bool_decide (NoDup (map fst es))
      && forallb (fun e : string * node => unique_names (snd e)) es
  | Symlink _ _ (Some r) => unique_names r
  | _ => true
  end.

(** More worlds: a child that writes no log, an execution whose name does
    not resolve, a provisioning service that cannot be reached, that
    answers without a JSON body, without a name, with an array or with a
    name that is [null], and a source tree with a named pipe. *)
Definition silent_child (code : Z) (_ : list string)
    (_ : gmap string string) (_ : string) (s : dentries) : Z * dentries :=
  (code, s).

Definition no_log_world : World :=
  {| os_environ := sample_environ;
     requests_post := answering 200;
     root_tree := sample_root;
     child_process := silent_child 3;
     _get_execution_name := Ok (Some "exec-1");
     upload_from := fun _ _ => Ok tt;
     bool_flag := bare_when_true;
     urljoins := sample_urljoins |}.

Definition unnamed_world : World :=
  {| os_environ := sample_environ;
     requests_post := answering 200;
     root_tree := sample_root;
     child_process := logging_child 0;
     _get_execution_name := Ok None;
     upload_from := fun _ _ => Raise (Raised "upload failed");
     bool_flag := bare_when_true;
     urljoins := sample_urljoins |}.

Definition offline_world : World :=
  {| os_environ := sample_environ;
     requests_post := fun _ _ _ => Raise (Raised "connection refused");
     root_tree := sample_root;
     child_process := logging_child 0;
     _get_execution_name := Ok (Some "exec-1");
     upload_from := fun _ _ => Ok tt;
     bool_flag := bare_when_true;
     urljoins := sample_urljoins |}.

Definition not_json_world : World :=
  {| os_environ := sample_environ;
     requests_post := fun _ _ _ => Ok (mkResponse 200 None);
     root_tree := sample_root;
     child_process := logging_child 0;
     _get_execution_name := Ok (Some "exec-1");
     upload_from := fun _ _ => Ok tt;
     bool_flag := bare_when_true;
     urljoins := sample_urljoins |}.

Definition nameless_world : World :=
  {| os_environ := sample_environ;
     requests_post :=
       fun _ _ _ =>
         Ok (mkResponse 200 (Some (JObject [ ("id", JString "pvc-1") ])));
     root_tree := sample_root;
     child_process := logging_child 0;
     _get_execution_name := Ok (Some "exec-1");
     upload_from := fun _ _ => Ok tt;
     bool_flag := bare_when_true;
     urljoins := sample_urljoins |}.

Definition array_world : World :=
  {| os_environ := sample_environ;
     requests_post := fun _ _ _ => Ok (mkResponse 200 (Some (JArray [])));
     root_tree := sample_root;
     child_process := logging_child 0;
     _get_execution_name := Ok (Some "exec-1");
     upload_from := fun _ _ => Ok tt;
     bool_flag := bare_when_true;
     urljoins := sample_urljoins |}.

Definition null_name_world : World :=
  {| os_environ := sample_environ;
     requests_post :=
       fun _ _ _ => Ok (mkResponse 200 (Some (JObject [ ("name", JNull) ])));
     root_tree := sample_root;
     child_process := logging_child 0;
     _get_execution_name := Ok (Some "exec-1");
     upload_from := fun _ _ => Ok tt;
     bool_flag := bare_when_true;
     urljoins := sample_urljoins |}.

Definition pipe_root : list (string * node) :=
  [ ("main.nf", File "workflow {}"); ("fifo", Special) ].

Definition pipe_world : World :=
  {| os_environ := sample_environ;
     requests_post := answering 200;
     root_tree := pipe_root;
     child_process := logging_child 0;
     _get_execution_name := Ok (Some "exec-1");
     upload_from := fun _ _ => Ok tt;
     bool_flag := bare_when_true;
     urljoins := sample_urljoins |}.

(** * Properties *)

(** ** The command line *)

Lemma cmd_splice_order bf p : cmd bf p = cmd_in_order bf splice_order p.
Proof.
  unfold cmd, cmd_in_order, splice_order, flag_group.
  cbn [map concat param_name param_value]. by rewrite app_nil_r.
Qed.

(** A token of a group is the flag of a present value or one of its value
    tokens. *)
Lemma get_flag_tokens bf name v tok :
  In tok (get_flag bf name v) ->
  (tok = flag name /\ v <> PNone) \/ In tok (value_texts bf name v).
Proof.
  destruct v; cbn; intros H; try tauto;
    (destruct H as [<- | [<- | []]];
     [left; split; [done | discriminate] | right; by left]).
Qed.

Lemma value_texts_supplied bf p q tok :
  In tok (value_texts bf (param_name q) (param_value p q)) ->
  In tok (supplied_texts bf p).
Proof.
  unfold supplied_texts. rewrite !in_app_iff.
  destruct q; cbn [param_name param_value]; intros H;
    try match type of H with
        | context [of_opt _ ?o] => destruct o; [| destruct H]
        end;
    cbn [of_opt value_texts opt_text id In] in *; tauto.
Qed.

(** Where a token of the command line can come from. *)
Lemma cmd_tokens bf p tok :
  In tok (cmd bf p) ->
  In tok cmd_base
  \/ (exists q, tok = flag (param_name q) /\ param_value p q <> PNone)
  \/ In tok (supplied_texts bf p).
Proof.
  rewrite cmd_splice_order. unfold cmd_in_order.
  rewrite in_app_iff, in_concat.
  intros [H | (g & Hg & Htok)]; [by left | right].
  apply in_map_iff in Hg as (q & <- & _).
  apply get_flag_tokens in Htok as [[-> Hv] | Hv].
  - left. by exists q.
  - right. by eapply value_texts_supplied.
Qed.

Lemma flag_inj a b : flag a = flag b -> a = b.
Proof. unfold flag. cbn. intros H. by injection H. Qed.

Lemma param_name_inj q q' : param_name q = param_name q' -> q = q'.
Proof. destruct q, q'; cbn; intros H; try reflexivity; discriminate H. Qed.

Lemma flag_not_in_base name : ~ In (flag name) cmd_base.
Proof.
  unfold cmd_base, flag. cbn. intros H.
  repeat (destruct H as [H | H]; [discriminate H |]). exact H.
Qed.

Lemma pretty_default_min_reads : pretty default_min_reads = "5".
Proof. reflexivity. Qed.

Lemma pretty_default_max_hits : pretty default_max_hits = "50".
Proof. reflexivity. Qed.

(** The command line for [genome_params], token by token: the three
    defaulted parameters come before [--genome]. *)
Example cmd_genome_params :
  cmd bare_when_true genome_params =
    [ "/root/nextflow"; "run"; "/nf-workdir/main.nf"; "-work-dir";
      "/nf-workdir"; "-profile"; "docker"; "-c"; "latch.config";
      "--input"; "latch:///samplesheet.csv";
      "--viral_fasta"; "latch:///virus.fasta";
      "--outdir"; "latch:///results";
      "--min_reads"; "5"; "--max_hits"; "50"; "--remove_duplicates";
      "--genome"; "GRCh38" ].
Proof. reflexivity. Qed.

(** C1, as stated, fails: with a genome name given, the command line is not
    the one that lists the flag groups in the order in which
    [nextflow_runtime] declares its parameters. The declaration has
    [genome] before [min_reads], the command line has [--min_reads 5
    --max_hits 50 --remove_duplicates] before [--genome GRCh38]. *)
Lemma C1_declared_order_counterexample :
  cmd bare_when_true genome_params
  <> cmd_in_order bare_when_true declared_order genome_params.
Proof. vm_compute. discriminate. Qed.

(** C1, amended. For every boolean syntax and every RunParameters value the
    command line is the fixed head followed by the flag groups in the order
    of the [get_flag] lines: input, viral_fasta, outdir, email,
    multiqc_title, min_reads, max_hits, remove_duplicates, genome, fasta,
    gtf, multiqc_methods_description. With min_reads 5, max_hits 50 and
    remove_duplicates true it contains [--min_reads 5 --max_hits 50]
    followed by the boolean-true encoding, after the groups of the first
    five parameters and before those of the last four. *)
Theorem C1_cmd_lists_groups_in_splice_order bf p :
  cmd bf p = cmd_in_order bf splice_order p
  /\ (min_reads p = default_min_reads ->
      max_hits p = default_max_hits ->
      remove_duplicates p = default_remove_duplicates ->
      cmd bf p =
        cmd_in_order bf
          [Pinput; Pviral_fasta; Poutdir; Pemail; Pmultiqc_title] p
        ++ ["--min_reads"; "5"; "--max_hits"; "50"]
        ++ bf "remove_duplicates" true
        ++ concat (map (flag_group bf p)
                     [Pgenome; Pfasta; Pgtf; Pmultiqc_methods_description])).
Proof.
  split; [apply cmd_splice_order |].
  intros Hmin Hmax Hdup.
  unfold cmd, cmd_in_order, flag_group.
  cbn [map concat param_name param_value get_flag].
  rewrite Hmin, Hmax, Hdup, pretty_default_min_reads, pretty_default_max_hits.
  unfold default_remove_duplicates.
  rewrite !app_nil_r, <- !app_assoc. reflexivity.
Qed.

(** The amended C1 at [genome_params]. *)
Lemma C1_witness :
  cmd bare_when_true genome_params =
    cmd_in_order bare_when_true
      [Pinput; Pviral_fasta; Poutdir; Pemail; Pmultiqc_title] genome_params
    ++ ["--min_reads"; "5"; "--max_hits"; "50"]
    ++ bare_when_true "remove_duplicates" true
    ++ ["--genome"; "GRCh38"].
Proof.
  exact (proj2 (C1_cmd_lists_groups_in_splice_order
                  bare_when_true genome_params)
           eq_refl eq_refl eq_refl).
Defined.

(** Dropping an absent parameter from an order changes nothing. *)
Lemma remove_absent_group bf p q order :
  absent p q ->
  concat (map (flag_group bf p) (remove param_eq_dec q order))
  = concat (map (flag_group bf p) order).
Proof.
  intros Habs. induction order as [| q' order IH]; [done |].
  cbn [remove]. destruct (param_eq_dec q q') as [<- | Hne].
  - cbn [map concat]. unfold flag_group at 2. rewrite Habs. cbn. exact IH.
  - cbn [map concat]. by rewrite IH.
Qed.

(** The flag of an absent field can only be in the command line as a
    value: as one of the texts supplied for the other parameters. *)
Lemma flag_of_absent_field_only_as_value bf p q :
  absent p q ->
  ~ In (flag (param_name q)) (supplied_texts bf p) ->
  ~ In (flag (param_name q)) (cmd bf p).
Proof.
  intros Habs Hsup Hin.
  apply cmd_tokens in Hin as [Hb | [(q' & Heq & Hv) | Hs]].
  - by apply flag_not_in_base in Hb.
  - apply flag_inj, param_name_inj in Heq as <-. by apply Hv.
  - by apply Hsup.
Qed.

(** C6. For every RunParameters value and every optional field (email,
    report title, genome name, FASTA override, GTF override,
    methods-description text) that is absent, the flag group of the field
    is omitted entirely: it is empty, not a flag with an empty value; the
    command line is the one built without that field; and no group of the
    command line, that of the boolean apart (its syntax is the runner's),
    begins with the flag of that field. *)
Theorem C6_absent_optional_emits_no_flag bf p q :
  optional q = true ->
  absent p q ->
  flag_group bf p q = []
  /\ cmd bf p = cmd_in_order bf (remove param_eq_dec q splice_order) p
  /\ (forall q',
        q' <> Premove_duplicates ->
        head (flag_group bf p q') <> Some (flag (param_name q))).
Proof.
  intros _ Habs. split; [| split].
  - unfold flag_group. by rewrite Habs.
  - rewrite cmd_splice_order. unfold cmd_in_order.
    by rewrite remove_absent_group.
  - intros q' Hq' Hhead. unfold flag_group in Hhead.
    assert (flag (param_name q') = flag (param_name q)
            /\ param_value p q' <> PNone) as [Heq Hv].
    { destruct (param_value p q') as [| b | z | t | f | d] eqn:Hv';
        cbn [get_flag head] in Hhead;
        [ discriminate Hhead
        | exfalso
        | split; [congruence | discriminate] .. ].
      destruct q'; try done; cbn in Hv';
        repeat match type of Hv' with
               | context [of_opt _ ?o] => destruct o; cbn in Hv'
               end;
        discriminate Hv'. }
    apply flag_inj, param_name_inj in Heq as ->. by apply Hv.
Qed.

(** C6 at [genome_params] and the email field: nothing is emitted for the
    email, and the group of the genome name begins with its own flag. *)
Lemma C6_witness :
  flag_group bare_when_true genome_params Pemail = []
  /\ cmd bare_when_true genome_params
     = cmd_in_order bare_when_true (remove param_eq_dec Pemail splice_order)
         genome_params
  /\ head (flag_group bare_when_true genome_params Pgenome)
     <> Some (flag (param_name Pemail)).
Proof.
  destruct (C6_absent_optional_emits_no_flag bare_when_true genome_params
              Pemail eq_refl eq_refl) as (Hg & Hcmd & Hhead).
  split; [exact Hg | split; [exact Hcmd |]]. by apply Hhead.
Defined.

(** ** Staging *)

Lemma denylist_free_DDir es :
  denylist_free (DDir es) = true <-> clean_entries es.
Proof.
  unfold clean_entries. induction es as [| [name c] es IH].
  - split; [constructor | reflexivity].
  - change (denylist_free (DDir ((name, c) :: es)))
      with (negb (bool_decide (name ∈ ignore_list)) && denylist_free c
            && denylist_free (DDir es)).
    rewrite !andb_true_iff, negb_true_iff, bool_decide_eq_false, IH,
      Forall_cons_iff.
    cbn [fst snd]. tauto.
Qed.

Lemma alist_lookup_clean k (d : dentries) x :
  clean_entries d -> alist_lookup k d = Some x -> denylist_free x = true.
Proof.
  induction 1 as [| [k' v] d [_ Hv] _ IH]; cbn; [discriminate |].
  destruct (decide (k = k')); [| exact IH]. intros [= <-]. exact Hv.
Qed.

Lemma alist_set_clean k x (d : dentries) :
  clean_entries d -> k ∉ ignore_list -> denylist_free x = true ->
  clean_entries (alist_set k x d).
Proof.
  intros Hd Hk Hx. induction Hd as [| [k' v] d Hhead Htail IH]; cbn.
  - by repeat constructor.
  - destruct (decide (k = k')); constructor; done.
Qed.

(** The loop keeps a directory free of denylisted names when the copy of
    each entry that it does not skip does, whatever that copy is. *)
Lemma copy_loop_clean f es :
  Forall (fun e : string * node =>
            fst e ∉ ignore_list ->
            forall old,
              (forall d, old = Some d -> denylist_free d = true) ->
              forall d, fst (f (fst e) (snd e) old) = Some d ->
                        denylist_free d = true) es ->
  forall dst, clean_entries dst ->
              clean_entries (fst (copy_loop f ignore_list es dst)).
Proof.
  induction 1 as [| [name c] es Hc _ IH]; intros dst Hdst; cbn; [done |].
  case_bool_decide as Hname; [by apply IH |].
  cbn [fst]. apply IH.
  destruct (fst (f name c (alist_lookup name dst))) as [d |] eqn:Hcopy;
    cbn [put]; [| done].
  apply alist_set_clean; [done | done |].
  eapply (Hc Hname (alist_lookup name dst)); [| exact Hcopy].
  intros d' Hd'. by eapply alist_lookup_clean.
Qed.

(** The copy of one entry whose name is not on the denylist, at any depth
    and through links, leaves what it writes free of denylisted names. *)
Lemma copy_entry_clean dangling_flag n :
  forall followed src dst name old,
    name ∉ ignore_list ->
    (forall d, old = Some d -> denylist_free d = true) ->
    forall d,
      fst (copy_entry (fun _ _ => ignore_list) dangling_flag followed src dst
             name n old) = Some d ->
      denylist_free d = true.
Proof.
  induction n as [data | es IH | linkto te | linkto te r IH |]
    using node_nested_ind;
    intros followed src dst name old Hname Hold d; cbn [copy_entry].
  - destruct old as [[? | d0] |]; cbn [fst];
      try (intros [= <-]; reflexivity).
    destruct (alist_lookup name d0) as [[? | ?] |]; cbn [fst];
      try (by apply Hold);
      intros [= <-]; apply denylist_free_DDir, alist_set_clean;
      try done; apply denylist_free_DDir; by apply Hold.
  - destruct old as [[? | d0] |]; cbn [fst].
    + apply Hold.
    + intros [= <-]. apply denylist_free_DDir, copy_loop_clean.
      * eapply Forall_impl; [exact IH |].
        intros [nm c] Hc Hnm old. by apply Hc.
      * apply denylist_free_DDir. by apply Hold.
    + intros [= <-]. apply denylist_free_DDir, copy_loop_clean.
      * eapply Forall_impl; [exact IH |].
        intros [nm c] Hc Hnm old. by apply Hc.
      * constructor.
  - destruct (negb followed && negb te && dangling_flag); apply Hold.
  - destruct (negb followed && negb te && dangling_flag);
      [apply Hold | by apply IH].
  - apply Hold.
Qed.

Lemma stage_tree_clean root old :
  clean_entries old -> clean_entries (fst (stage_tree root old)).
Proof.
  intros Hold. unfold stage_tree, copytree. apply copy_loop_clean; [| done].
  apply Forall_forall. intros [nm c] _ Hnm o. by apply copy_entry_clean.
Qed.

(** Staging [sample_root] into an empty directory: [work] at the top and
    [results] inside [bin] are left out, [main.nf] and [bin/run.sh] are
    copied, the link [broken], whose text does not exist, is skipped, no
    error. *)
Example stage_sample_root :
  stage_tree sample_root [] =
    ([ ("main.nf", DFile "workflow {}");
       ("bin", DDir [ ("run.sh", DFile "#!/bin/sh") ]) ], []).
Proof. reflexivity. Qed.

(** A file that meets a directory of its name is written inside it. *)
Example stage_file_into_directory :
  stage_tree [ ("data", File "1,2") ] [ ("data", DDir []) ] =
    ([ ("data", DDir [ ("data", DFile "1,2") ]) ], []).
Proof. reflexivity. Qed.

(** C5. For every source tree, the working directory that the copy step
    leaves has no entry, at any depth, whose name is on the denylist
    (latch, .latch, nextflow, .nextflow, work, results, miniconda,
    anaconda3, mambaforge): so for a fresh, empty working directory, and in
    general the copy never adds such an entry to a directory that had
    none, also not inside a directory that is itself copied. *)
Theorem C5_staging_excludes_denylist w :
  denylist_free (DDir (workdir (stage w []))) = true
  /\ (forall s,
        denylist_free (DDir s) = true ->
        denylist_free (DDir (workdir (stage w s))) = true).
Proof.
  assert (forall s,
            denylist_free (DDir s) = true ->
            denylist_free (DDir (workdir (stage w s))) = true) as Hkeep.
  { intros s. rewrite !denylist_free_DDir. apply stage_tree_clean. }
  split; [by apply Hkeep | exact Hkeep].
Qed.

(** C5 at [sample_root], staged over a directory that already holds a
    file. *)
Lemma C5_witness :
  workdir (stage happy_world [ ("latch.config", DFile "docker {}") ]) =
    [ ("latch.config", DFile "docker {}");
      ("main.nf", DFile "workflow {}");
      ("bin", DDir [ ("run.sh", DFile "#!/bin/sh") ]) ]
  /\ denylist_free
       (DDir (workdir (stage happy_world
                         [ ("latch.config", DFile "docker {}") ]))) = true.
Proof.
  split; [reflexivity |].
  apply (proj2 (C5_staging_excludes_denylist happy_world)
           [ ("latch.config", DFile "docker {}") ]).
  reflexivity.
Defined.

(** *** Links *)

Lemma alist_set_same {A} k (v : A) l :
  alist_lookup k l = Some v -> alist_set k v l = l.
Proof.
  induction l as [| [k' v'] l IH]; cbn; [discriminate |].
  destruct (decide (k = k')) as [-> | Hne].
  - by intros [= ->].
  - intros H. by rewrite IH.
Qed.

Lemma put_lookup name (dst : dentries) :
  put name (alist_lookup name dst) dst = dst.
Proof.
  unfold put. destruct (alist_lookup name dst) eqn:H; [| done].
  by apply alist_set_same.
Qed.


(** Following a link that dangles fails in [copy2]. *)
Lemma copy_entry_dangling_followed ign dangling_flag n :
  dangling n = true ->
  forall src dst name old,
    copy_entry ign dangling_flag true src dst name n old
    = (old, [(src, dst, FileNotFoundError)]).
Proof.
  induction n as [data | es IH | linkto te | linkto te r IH |]
    using node_nested_ind;
    cbn [dangling copy_entry negb andb]; try discriminate; auto.
Qed.

(** So a link that dangles while its text exists is not skipped: the copy
    of the entry fails, and [copytree] raises [shutil.Error] at the end.
    The same holds of every dangling link when the flag is not set. *)
Remark copy_entry_dangling_text_exists ign dangling_flag linkto referent
    src dst name old :
  dangling (Symlink linkto true referent) = true ->
  copy_entry ign dangling_flag false src dst name
    (Symlink linkto true referent) old
  = (old, [(src, dst, FileNotFoundError)]).
Proof.
  intros Hd. cbn [copy_entry negb andb].
  destruct referent as [r |]; [| reflexivity].
  by apply copy_entry_dangling_followed.
Qed.

Remark copy_entry_dangling_unflagged ign linkto te src dst name old :
  copy_entry ign false false src dst name (Symlink linkto te None) old
  = (old, [(src, dst, FileNotFoundError)]).
Proof. cbn. by rewrite andb_false_r. Qed.






(** ** Runs of the three operations

    Each operation is a finite composition of collaborator calls; the next
    lemmas spell out its run, case by case. *)

(** What the task returns touches nothing outside: no event, no change of
    the directory. *)
Lemma returned_name_run resp s :
  returned_name resp s = mkRun [] s (outcome (returned_name resp s)).
Proof.
  unfold returned_name, json_name, returns_str, mbind, M_bind, bind.
  destruct (json_body resp) as [[| b | l | t | items | members] |];
    try reflexivity.
  destruct (alist_lookup "name" members) as [[| b | l | t | items | ms] |];
    reflexivity.
Qed.

(** It returns a name exactly when the body is a JSON object whose [name]
    is a string. *)
Lemma returned_name_ok resp s name :
  outcome (returned_name resp s) = Ok name
  <-> exists members,
        json_body resp = Some (JObject members)
        /\ alist_lookup "name" members = Some (JString name).
Proof.
  unfold returned_name, json_name, returns_str, mbind, M_bind, bind.
  destruct (json_body resp) as [[| b | l | t | items | members] |];
    cbn [raise ret outcome];
    try (split; [done | by intros (? & ? & _)]).
  destruct (alist_lookup "name" members) as [[| b | l | t | items | ms] |]
    eqn:Hname; cbn [raise ret outcome workdir];
    try (split; [done | intros (? & [= <-] & Hn); congruence]).
  split.
  - intros [= <-]. by exists members.
  - intros (? & [= <-] & Hn). congruence.
Qed.

Lemma initialize_run w s :
  initialize w s =
    match os_environ w !! "FLYTE_INTERNAL_EXECUTION_ID" with
    | None => mkRun [] s (Raise (RuntimeError "failed to get execution token"))
    | Some token =>
        let request :=
          [ EvPrint "Provisioning shared storage volume... ";
            EvHttpPost provision_url (headers token) provision_json ] in
        match requests_post w provision_url (headers token) provision_json with
        | Raise e => mkRun request s (Raise e)
        | Ok resp =>
            if is_error_status (status_code resp)
            then mkRun request s (Raise (HTTPError (status_code resp)))
            else mkRun (request ++ [EvPrint "Done."]) s
                   (outcome (returned_name resp s))
        end
    end.
Proof.
  unfold initialize. destruct (os_environ w !! _) as [token |]; [| reflexivity].
  unfold mbind, M_bind, bind, print, call, raise_for_status.
  cbn [outcome trace workdir].
  destruct (requests_post w _ _ _) as [resp | e]; cbn [outcome trace workdir app];
    [| reflexivity].
  destruct (is_error_status _); cbn [raise ret outcome trace workdir app];
    [reflexivity |].
  by rewrite returned_name_run.
Qed.

Lemma launch_body_run w pvc_name p s :
  launch_body w pvc_name p s =
    let staged := stage_tree (root_tree w) s in
    let argv := cmd (bool_flag w) p in
    let child_env := env (os_environ w) pvc_name in
    match snd staged with
    | [] =>
        let child := child_process w argv child_env shared_dir (fst staged) in
        mkRun [ EvCopytree "/root" shared_dir;
                EvPrint "Launching Nextflow Runtime";
                EvPrint (String.concat " " argv);
                EvPrint "";
                EvSpawn argv child_env shared_dir ]
          (snd child)
          (if decide (fst child = 0) then Ok tt
           else Raise (CalledProcessError (fst child) argv))
    | _ :: _ =>
        mkRun [EvCopytree "/root" shared_dir] (fst staged)
          (Raise (ShutilError (snd staged)))
    end.
Proof.
  unfold launch_body, mbind, M_bind, bind, stage, print, call, subprocess_run.
  cbn [outcome trace workdir].
  destruct (snd (stage_tree _ _)); cbn [outcome trace workdir app]; reflexivity.
Qed.

Lemma finalize_run w s :
  finalize w s =
    let probe := [EvPrint ""; EvExists nextflow_log] in
    if bool_decide (is_Some (alist_lookup ".nextflow.log" s)) then
      match _get_execution_name w with
      | Raise e => mkRun (probe ++ [EvGetExecutionName]) s (Raise e)
      | Ok None =>
          mkRun (probe ++
                 [ EvGetExecutionName;
                   EvPrint "Skipping logs upload, failed to get execution name" ])
            s (Ok tt)
      | Ok (Some name) =>
          mkRun (probe ++
                 [ EvGetExecutionName;
                   EvPrint ("Uploading .nextflow.log to " +:+ remote_log w name);
                   EvUpload nextflow_log (remote_log w name) ])
            s (upload_from w (remote_log w name) nextflow_log)
      end
    else mkRun probe s (Ok tt).
Proof.
  unfold finalize, mbind, M_bind, bind, print, call, log_exists.
  cbn [outcome trace workdir].
  destruct (bool_decide _); cbn [outcome trace workdir app ret]; [| reflexivity].
  destruct (_get_execution_name w) as [[name |] | e];
    cbn [outcome trace workdir app]; try reflexivity.
Qed.

Lemma nextflow_runtime_run w pvc_name p s :
  nextflow_runtime w pvc_name p s =
    let body := launch_body w pvc_name p s in
    let fin := finalize w (workdir body) in
    mkRun (trace body ++ trace fin) (workdir fin)
      (match outcome fin with
       | Raise e' => Raise e'
       | Ok _ => outcome body
       end).
Proof. reflexivity. Qed.

Lemma workflow_run w p s :
  nf_nf_core_viralintegration w p s =
    let init := initialize w s in
    match outcome init with
    | Ok pvc_name =>
        let run := nextflow_runtime w pvc_name p (workdir init) in
        mkRun (trace init ++ trace run) (workdir run) (outcome run)
    | Raise e => mkRun (trace init) (workdir init) (Raise e)
    end.
Proof. reflexivity. Qed.

(** [finalize] always starts with the log-file check. *)
Lemma finalize_probe w s :
  exists rest, trace (finalize w s) = EvPrint "" :: EvExists nextflow_log :: rest.
Proof.
  rewrite finalize_run. cbn zeta.
  destruct (bool_decide _); [| by eexists].
  destruct (_get_execution_name w) as [[name |] | e]; by eexists.
Qed.

(** When the log exists, the execution name lookup follows. *)
Lemma finalize_lookup w s :
  is_Some (alist_lookup ".nextflow.log" s) ->
  exists rest,
    trace (finalize w s) =
      EvPrint "" :: EvExists nextflow_log :: EvGetExecutionName :: rest.
Proof.
  intros Hlog. rewrite finalize_run. cbn zeta.
  rewrite bool_decide_eq_true_2 by done.
  destruct (_get_execution_name w) as [[name |] | e]; by eexists.
Qed.

(** When it does not, [finalize] is over, without an error. *)
Lemma finalize_no_log w s :
  ~ is_Some (alist_lookup ".nextflow.log" s) ->
  finalize w s = mkRun [EvPrint ""; EvExists nextflow_log] s (Ok tt).
Proof.
  intros Hlog. rewrite finalize_run. cbn zeta.
  by rewrite bool_decide_eq_false_2.
Qed.

(** A run in which everything succeeds. *)
Example happy_run :
  outcome (nf_nf_core_viralintegration happy_world plain_params []) = Ok tt
  /\ map (fun ev =>
            match ev with
            | EvHttpPost _ _ _ => "post"
            | EvCopytree _ _ => "copytree"
            | EvSpawn _ _ _ => "spawn"
            | EvExists _ => "exists"
            | EvGetExecutionName => "name"
            | EvUpload _ _ => "upload"
            | EvPrint _ => "print"
            end)
       (trace (nf_nf_core_viralintegration happy_world plain_params []))
     = [ "print"; "post"; "print"; "copytree"; "print"; "print"; "print";
         "spawn"; "print"; "exists"; "name"; "print"; "upload" ].
Proof. split; reflexivity. Qed.

(** ** Provisioning *)

(** C7. If the execution token variable is unset, [initialize] raises
    before it does anything else: its trace is empty, so no HTTP request is
    made, and the whole workflow ends there with the same error and an
    empty trace (no network or process work). When the token is present, the
    provisioning request is sent with the token in its [Authorization]
    header. The error is Python's [RuntimeError] with the message [failed
    to get execution token]. *)
Theorem C7_token_checked_before_request w p s :
  (os_environ w !! "FLYTE_INTERNAL_EXECUTION_ID" = None ->
   initialize w s =
     mkRun [] s (Raise (RuntimeError "failed to get execution token"))
   /\ nf_nf_core_viralintegration w p s =
        mkRun [] s (Raise (RuntimeError "failed to get execution token")))
  /\ (forall token,
        os_environ w !! "FLYTE_INTERNAL_EXECUTION_ID" = Some token ->
        exists rest,
          trace (initialize w s) =
            EvPrint "Provisioning shared storage volume... "
            :: EvHttpPost provision_url
                 {[ "Authorization" := "Latch-Execution-Token " +:+ token ]}
                 provision_json
            :: rest).
Proof.
  split.
  - intros Hnone.
    assert (initialize w s =
              mkRun [] s (Raise (RuntimeError "failed to get execution token")))
      as Hinit by (rewrite initialize_run; by rewrite Hnone).
    split; [exact Hinit |]. rewrite workflow_run. cbn zeta. by rewrite Hinit.
  - intros token Htoken. rewrite initialize_run, Htoken. cbn zeta.
    destruct (requests_post w _ _ _) as [resp | e]; [| by eexists].
    destruct (is_error_status _); by eexists.
Qed.

(** C7 in a world without the token and in one with the token [tok]. *)
Lemma C7_witness :
  nf_nf_core_viralintegration no_token_world plain_params [] =
    mkRun [] [] (Raise (RuntimeError "failed to get execution token"))
  /\ exists rest,
       trace (initialize happy_world []) =
         EvPrint "Provisioning shared storage volume... "
         :: EvHttpPost provision_url
              {[ "Authorization" := "Latch-Execution-Token tok" ]}
              provision_json
         :: rest.
Proof.
  split.
  - apply (C7_token_checked_before_request no_token_world plain_params []).
    reflexivity.
  - apply (C7_token_checked_before_request happy_world plain_params [] ).
    reflexivity.
Defined.

(** [nextflow_runtime] starts with the copy. *)
Lemma nextflow_runtime_stages_first w pvc_name p s :
  exists rest,
    trace (nextflow_runtime w pvc_name p s) = EvCopytree "/root" shared_dir :: rest.
Proof.
  rewrite nextflow_runtime_run, launch_body_run. cbn zeta.
  destruct (snd (stage_tree _ _)); by eexists.
Qed.

(** [initialize] neither stages nor spawns. *)
Lemma initialize_no_process w s :
  existsb is_copytree (trace (initialize w s)) = false
  /\ existsb is_spawn (trace (initialize w s)) = false.
Proof.
  rewrite initialize_run.
  destruct (os_environ w !! _) as [token |]; [| done]. cbn zeta.
  destruct (requests_post w _ _ _) as [resp | e]; [| done].
  by destruct (is_error_status _).
Qed.

(** The statuses that [raise_for_status] rejects are the client and server
    errors, 400 to 599; 500 is one of them, 200 and 300 are not. *)
Example error_status_500 :
  is_error_status 500 = true
  /\ is_error_status 200 = false
  /\ is_error_status 300 = false.
Proof. repeat split. Qed.

(** C8, as stated, fails: 300 is not a success status, yet when the
    endpoint answers 300 with a body that holds a name, nothing is raised,
    the run stages, starts the child and returns normally. *)
Lemma C8_non_success_status_counterexample :
  requests_post redirect_300_world provision_url (headers "tok")
    provision_json
    = Ok (mkResponse 300 (Some (JObject [ ("name", JString "pvc-1") ])))
  /\ existsb is_spawn
       (trace (nf_nf_core_viralintegration redirect_300_world plain_params []))
     = true
  /\ outcome (nf_nf_core_viralintegration redirect_300_world plain_params [])
     = Ok tt.
Proof. repeat split. Qed.

(** C8, amended. If the provisioning endpoint answers with a client or
    server error status (400 to 599, the statuses that [raise_for_status]
    rejects, such as 500), the workflow ends with the HTTP error of that
    status, its trace has no copy and no child process, and the working
    directory is untouched. Conversely, if the trace of the workflow has a
    copy or a child process, then the token was present, the endpoint
    answered with a status that is not such an error and a JSON object
    whose [name] is a string, and [initialize] returned that name. *)
Theorem C8_http_error_aborts_before_staging w p s :
  (forall token resp,
     os_environ w !! "FLYTE_INTERNAL_EXECUTION_ID" = Some token ->
     requests_post w provision_url (headers token) provision_json = Ok resp ->
     is_error_status (status_code resp) = true ->
     outcome (nf_nf_core_viralintegration w p s)
       = Raise (HTTPError (status_code resp))
     /\ existsb is_copytree (trace (nf_nf_core_viralintegration w p s)) = false
     /\ existsb is_spawn (trace (nf_nf_core_viralintegration w p s)) = false
     /\ workdir (nf_nf_core_viralintegration w p s) = s)
  /\ (existsb is_copytree (trace (nf_nf_core_viralintegration w p s)) = true
      \/ existsb is_spawn (trace (nf_nf_core_viralintegration w p s)) = true ->
      exists token resp obj name,
        os_environ w !! "FLYTE_INTERNAL_EXECUTION_ID" = Some token
        /\ requests_post w provision_url (headers token) provision_json = Ok resp
        /\ is_error_status (status_code resp) = false
        /\ json_body resp = Some (JObject obj)
        /\ alist_lookup "name" obj = Some (JString name)
        /\ outcome (initialize w s) = Ok name).
Proof.
  split.
  - intros token resp Htoken Hpost Hstatus.
    rewrite workflow_run, initialize_run, Htoken. cbn zeta.
    rewrite Hpost, Hstatus. done.
  - intros Hreached.
    destruct (initialize_no_process w s) as [Hc Hs].
    rewrite workflow_run in Hreached. cbn zeta in Hreached.
    destruct (outcome (initialize w s)) as [pvc_name | e] eqn:Hout;
      cbn [trace] in Hreached; [| rewrite Hc, Hs in Hreached; by intuition].
    clear Hreached Hc Hs. rewrite initialize_run in Hout.
    destruct (os_environ w !! _) as [token |]; [| done]. cbn zeta in Hout.
    destruct (requests_post w _ _ _) as [resp | e] eqn:Hpost; [| done].
    destruct (is_error_status _) eqn:Hstatus; [done |].
    cbn [outcome] in Hout.
    apply returned_name_ok in Hout as (obj & Hbody & Hname).
    exists token, resp, obj, pvc_name. by repeat split.
Qed.

(** The amended C8 in a world whose endpoint answers 500, and in one that
    reaches the copy. *)
Lemma C8_witness :
  outcome (nf_nf_core_viralintegration http_500_world plain_params [])
    = Raise (HTTPError 500)
  /\ existsb is_spawn
       (trace (nf_nf_core_viralintegration http_500_world plain_params []))
     = false
  /\ exists name, outcome (initialize happy_world []) = Ok name.
Proof.
  destruct (C8_http_error_aborts_before_staging http_500_world plain_params [])
    as [Herr _].
  destruct (Herr "tok"
              (mkResponse 500 (Some (JObject [ ("name", JString "pvc-1") ])))
              eq_refl eq_refl eq_refl) as (Hout & _ & Hspawn & _).
  destruct (C8_http_error_aborts_before_staging happy_world plain_params [])
    as [_ Hreach].
  destruct (Hreach (or_introl eq_refl))
    as (token & resp & obj & name & _ & _ & _ & _ & _ & Hinit).
  split; [exact Hout | split; [exact Hspawn | by exists name]].
Defined.

(** ** The child process *)

Lemma env_lookup environ pvc_name :
  env environ pvc_name !! "NXF_HOME" = Some "/root/.nextflow"
  /\ env environ pvc_name !! "NXF_OPTS"
     = Some "-Xms2048M -Xmx8G -XX:ActiveProcessorCount=4"
  /\ env environ pvc_name !! "K8S_STORAGE_CLAIM_NAME" = Some pvc_name
  /\ env environ pvc_name !! "NXF_DISABLE_CHECK_LATEST" = Some "true".
Proof.
  unfold env. split_and!.
  - rewrite 3 lookup_insert_ne by discriminate. apply lookup_insert_eq.
  - rewrite 2 lookup_insert_ne by discriminate. apply lookup_insert_eq.
  - rewrite lookup_insert_ne by discriminate. apply lookup_insert_eq.
  - apply lookup_insert_eq.
Qed.

Lemma env_frame environ pvc_name k :
  k ∉ overlay_keys -> env environ pvc_name !! k = environ !! k.
Proof.
  unfold overlay_keys, env. intros Hk.
  rewrite !not_elem_of_cons in Hk. destruct Hk as (H1 & H2 & H3 & H4 & _).
  rewrite 4 lookup_insert_ne by congruence. reflexivity.
Qed.

Lemma env_dom environ pvc_name :
  dom (env environ pvc_name) = list_to_set overlay_keys ∪ dom environ.
Proof. unfold env, overlay_keys. rewrite !dom_insert_L. set_solver. Qed.

Lemma finalize_no_spawn w s argv e cwd :
  ~ In (EvSpawn argv e cwd) (trace (finalize w s)).
Proof.
  rewrite finalize_run. cbn zeta.
  destruct (bool_decide _); [destruct (_get_execution_name w) as [[name |] | e0] |];
    cbn [trace app In]; intros H;
    repeat (destruct H as [H | H]; [discriminate H |]); exact H.
Qed.

Lemma spawn_in_runtime w pvc_name p s argv e cwd :
  In (EvSpawn argv e cwd) (trace (nextflow_runtime w pvc_name p s)) ->
  snd (stage_tree (root_tree w) s) = []
  /\ argv = cmd (bool_flag w) p
  /\ e = env (os_environ w) pvc_name
  /\ cwd = shared_dir.
Proof.
  rewrite nextflow_runtime_run, launch_body_run. cbn zeta. cbn [trace].
  rewrite in_app_iff. intros [Hbody | Hfin].
  - destruct (snd (stage_tree _ _)); cbn [trace In] in Hbody.
    + destruct Hbody as [H | [H | [H | [H | [H | []]]]]]; try discriminate H.
      by injection H as <- <- <-.
    + destruct Hbody as [H | []]. discriminate H.
  - by apply finalize_no_spawn in Hfin.
Qed.

(** C9. Every child process that [nextflow_runtime] starts gets the
    environment [env], and its working directory is the directory that the
    copy staged; such a child is started whenever the copy succeeds. [env]
    holds the four variables NXF_HOME, NXF_OPTS, K8S_STORAGE_CLAIM_NAME (the
    provisioned volume name) and NXF_DISABLE_CHECK_LATEST, agrees with the
    process environment on every other variable, and has no further
    variable. *)
Theorem C9_child_environment_is_an_overlay w pvc_name p s :
  (forall argv e cwd,
     In (EvSpawn argv e cwd) (trace (nextflow_runtime w pvc_name p s)) ->
     e = env (os_environ w) pvc_name
     /\ cwd = shared_dir
     /\ In (EvCopytree "/root" cwd) (trace (nextflow_runtime w pvc_name p s)))
  /\ (snd (stage_tree (root_tree w) s) = [] ->
      In (EvSpawn (cmd (bool_flag w) p) (env (os_environ w) pvc_name) shared_dir)
        (trace (nextflow_runtime w pvc_name p s)))
  /\ env (os_environ w) pvc_name !! "NXF_HOME" = Some "/root/.nextflow"
  /\ env (os_environ w) pvc_name !! "NXF_OPTS"
     = Some "-Xms2048M -Xmx8G -XX:ActiveProcessorCount=4"
  /\ env (os_environ w) pvc_name !! "K8S_STORAGE_CLAIM_NAME" = Some pvc_name
  /\ env (os_environ w) pvc_name !! "NXF_DISABLE_CHECK_LATEST" = Some "true"
  /\ (forall k, k ∉ overlay_keys ->
                env (os_environ w) pvc_name !! k = os_environ w !! k)
  /\ dom (env (os_environ w) pvc_name)
     = list_to_set overlay_keys ∪ dom (os_environ w).
Proof.
  split; [| split].
  - intros argv e cwd Hin.
    destruct (spawn_in_runtime _ _ _ _ _ _ _ Hin) as (_ & _ & -> & ->).
    split_and!; try done.
    destruct (nextflow_runtime_stages_first w pvc_name p s) as [rest ->].
    by left.
  - intros Hstaged. rewrite nextflow_runtime_run, launch_body_run. cbn zeta.
    rewrite Hstaged. cbn [trace]. apply in_app_iff. left. cbn. tauto.
  - pose proof (env_lookup (os_environ w) pvc_name) as (? & ? & ? & ?).
    split_and!; try done; [apply env_frame | apply env_dom].
Qed.

(** C9 in [happy_world]: the child is started, and [HOME] passes through. *)
Lemma C9_witness :
  In (EvSpawn (cmd bare_when_true plain_params) (env sample_environ "pvc-1")
        shared_dir)
    (trace (nextflow_runtime happy_world "pvc-1" plain_params []))
  /\ env sample_environ "pvc-1" !! "HOME" = Some "/root".
Proof.
  destruct (C9_child_environment_is_an_overlay happy_world "pvc-1" plain_params [])
    as (_ & Hspawn & _ & _ & _ & _ & Hframe & _).
  split.
  - apply Hspawn. reflexivity.
  - change (env (os_environ happy_world) "pvc-1" !! "HOME" = Some "/root").
    rewrite Hframe; [reflexivity |].
    unfold overlay_keys. rewrite !not_elem_of_cons. split_and!; try done.
    apply not_elem_of_nil.
Defined.

(** ** The provisioning request *)

Lemma runtime_no_post w pvc_name p s :
  filter (fun ev => is_post ev = true) (trace (nextflow_runtime w pvc_name p s)) = [].
Proof.
  rewrite nextflow_runtime_run, launch_body_run. cbn zeta. cbn [trace].
  rewrite filter_app.
  assert (forall s', filter (fun ev => is_post ev = true) (trace (finalize w s')) = [])
    as Hfin.
  { intros s'. rewrite finalize_run. cbn zeta.
    destruct (bool_decide _); [destruct (_get_execution_name w) as [[name |] | e0] |];
      reflexivity. }
  rewrite Hfin, app_nil_r.
  destruct (snd (stage_tree _ _)); reflexivity.
Qed.

Lemma in_post_filter ev t :
  is_post ev = true -> In ev t -> In ev (filter (fun ev => is_post ev = true) t).
Proof.
  intros Hev Hin. apply list_elem_of_In, list_elem_of_filter.
  split; [done | by apply list_elem_of_In].
Qed.

Lemma initialize_post w s url hd json :
  In (EvHttpPost url hd json) (trace (initialize w s)) ->
  url = provision_url /\ json = provision_json.
Proof.
  rewrite initialize_run.
  destruct (os_environ w !! _) as [token |]; [| intros []]. cbn zeta.
  assert (forall rest,
            (forall ev, In ev rest -> is_post ev = false) ->
            In (EvHttpPost url hd json)
              ([ EvPrint "Provisioning shared storage volume... ";
                 EvHttpPost provision_url (headers token) provision_json ] ++ rest) ->
            url = provision_url /\ json = provision_json) as Hreq.
  { intros rest Hrest [H | [H | H]]; [discriminate H | by injection H as <- <- <- |].
    apply Hrest in H. discriminate H. }
  destruct (requests_post w _ _ _) as [resp | e];
    [destruct (is_error_status _) |]; cbn [trace]; intros Hin.
  - apply (Hreq []); [intros ev [] | by rewrite app_nil_r].
  - apply (Hreq [EvPrint "Done."]); [| done]. by intros ev [<- | []].
  - apply (Hreq []); [intros ev [] | by rewrite app_nil_r].
Qed.

(** C10. Every request that a run of the workflow sends with
    [requests.post] goes to the provisioning endpoint with the body
    [{"storage_gib": 100}]; these requests are those of [initialize],
    which takes no workflow parameter, so no input of the caller reaches
    the size. *)
Theorem C10_requested_size_is_100_gib w p s :
  (forall url hd json,
     In (EvHttpPost url hd json) (trace (nf_nf_core_viralintegration w p s)) ->
     url = provision_url /\ json = {[ "storage_gib" := 100 ]}
     /\ json !! "storage_gib" = Some 100)
  /\ filter (fun ev => is_post ev = true)
       (trace (nf_nf_core_viralintegration w p s))
     = filter (fun ev => is_post ev = true) (trace (initialize w s)).
Proof.
  assert (filter (fun ev => is_post ev = true)
            (trace (nf_nf_core_viralintegration w p s))
          = filter (fun ev => is_post ev = true) (trace (initialize w s)))
    as Hsame.
  { rewrite workflow_run. cbn zeta.
    destruct (outcome (initialize w s)) as [pvc_name | e]; cbn [trace]; [| done].
    by rewrite filter_app, runtime_no_post, app_nil_r. }
  split; [| exact Hsame].
  intros url hd json Hin.
  apply (in_post_filter (EvHttpPost url hd json) _ eq_refl) in Hin. rewrite Hsame in Hin.
  apply list_elem_of_In, list_elem_of_filter in Hin as [_ Hin].
  apply list_elem_of_In, initialize_post in Hin as [-> ->].
  split_and!; try done.
Qed.

(** C10 at the request that [happy_world] sees. *)
Lemma C10_witness :
  In (EvHttpPost provision_url (headers "tok") provision_json)
    (trace (nf_nf_core_viralintegration happy_world genome_params []))
  /\ provision_json !! "storage_gib" = Some 100.
Proof.
  assert (In (EvHttpPost provision_url (headers "tok") provision_json)
            (trace (nf_nf_core_viralintegration happy_world genome_params [])))
    as Hin by (right; left; reflexivity).
  split; [exact Hin |].
  apply (proj1 (C10_requested_size_is_100_gib happy_world genome_params [])
           _ _ _ Hin).
Defined.

(** ** Errors and the [finally] suite *)

(** C2, as stated, fails: the child exits 1, so the [try] suite raises
    [CalledProcessError 1]; the log exists and the execution name lookup
    raises inside [finalize]; the caller gets the error of the lookup, not
    that of the child. *)
Lemma C2_finalize_error_counterexample :
  outcome (launch_body lookup_fails_world "pvc-1" plain_params [])
    = Raise (CalledProcessError 1 (cmd bare_when_true plain_params))
  /\ outcome (finalize lookup_fails_world
                (workdir (launch_body lookup_fails_world "pvc-1"
                            plain_params [])))
     = Raise (Raised "execution name lookup failed")
  /\ outcome (nextflow_runtime lookup_fails_world "pvc-1" plain_params [])
     = Raise (Raised "execution name lookup failed").
Proof. split; [| split]; reflexivity. Qed.

(** C2, amended. If the [try] suite raises and [finalize] then raises, the
    error that reaches the caller is the one raised inside [finalize]: it
    replaces the execution error. The execution error reaches the caller
    when [finalize] completes. In every case [finalize] runs after the
    [try] suite and starts with the log-file check, and the execution name
    lookup follows whenever the log exists. *)
Theorem C2_finalize_error_replaces_execution_error w pvc_name p s :
  (forall e e',
     outcome (launch_body w pvc_name p s) = Raise e ->
     outcome (finalize w (workdir (launch_body w pvc_name p s))) = Raise e' ->
     outcome (nextflow_runtime w pvc_name p s) = Raise e')
  /\ (forall e,
        outcome (launch_body w pvc_name p s) = Raise e ->
        outcome (finalize w (workdir (launch_body w pvc_name p s))) = Ok tt ->
        outcome (nextflow_runtime w pvc_name p s) = Raise e)
  /\ (exists rest,
        trace (nextflow_runtime w pvc_name p s) =
          trace (launch_body w pvc_name p s)
          ++ EvPrint "" :: EvExists nextflow_log :: rest)
  /\ (is_Some (alist_lookup ".nextflow.log"
                 (workdir (launch_body w pvc_name p s))) ->
      exists rest,
        trace (nextflow_runtime w pvc_name p s) =
          trace (launch_body w pvc_name p s)
          ++ EvPrint "" :: EvExists nextflow_log :: EvGetExecutionName :: rest).
Proof.
  rewrite nextflow_runtime_run. cbn zeta. cbn [outcome trace].
  split_and!.
  - intros e e' _ Hfin. by rewrite Hfin.
  - intros e Hbody Hfin. by rewrite Hfin.
  - destruct (finalize_probe w (workdir (launch_body w pvc_name p s)))
      as [rest ->]. by exists rest.
  - intros Hlog.
    destruct (finalize_lookup w (workdir (launch_body w pvc_name p s)) Hlog)
      as [rest ->]. by exists rest.
Qed.

(** The amended C2 when the child exits 2 and the upload raises. *)
Lemma C2_witness :
  outcome (nextflow_runtime upload_fails_world "pvc-1" plain_params [])
    = Raise (Raised "upload failed").
Proof.
  apply (proj1 (C2_finalize_error_replaces_execution_error
                  upload_fails_world "pvc-1" plain_params [])
           (CalledProcessError 2 (cmd bare_when_true plain_params))
           (Raised "upload failed") eq_refl eq_refl).
Defined.

(** C4, as stated, fails: the child exits 2, [finalize] runs and the upload
    raises in it; the caller does not get [CalledProcessError 2]. *)
Lemma C4_execution_error_counterexample :
  fst (child_process upload_fails_world
         (cmd (bool_flag upload_fails_world) plain_params)
         (env (os_environ upload_fails_world) "pvc-1") shared_dir
         (fst (stage_tree (root_tree upload_fails_world) []))) = 2
  /\ outcome (nextflow_runtime upload_fails_world "pvc-1" plain_params [])
     <> Raise (CalledProcessError 2
                 (cmd (bool_flag upload_fails_world) plain_params)).
Proof. split; [reflexivity | discriminate]. Qed.

(** C4, amended. For every run in which the copy succeeds and the child
    exits non-zero, the trace continues after the child with the log-file
    check and, if the log exists, with the execution name lookup (and with
    nothing more if it does not). The run then ends with an error: the
    [CalledProcessError] that carries the exit code of the child whenever
    [finalize] completes, the error of [finalize] when it raises. *)
Theorem C4_finalize_runs_after_failed_child w pvc_name p s :
  let argv := cmd (bool_flag w) p in
  let child_env := env (os_environ w) pvc_name in
  let staged := stage_tree (root_tree w) s in
  let child := child_process w argv child_env shared_dir (fst staged) in
  snd staged = [] ->
  fst child <> 0 ->
  exists before rest,
    trace (nextflow_runtime w pvc_name p s) =
      before
      ++ [ EvSpawn argv child_env shared_dir;
           EvPrint ""; EvExists nextflow_log ]
      ++ rest
    /\ (is_Some (alist_lookup ".nextflow.log" (snd child)) ->
        exists rest', rest = EvGetExecutionName :: rest')
    /\ (~ is_Some (alist_lookup ".nextflow.log" (snd child)) -> rest = [])
    /\ (outcome (finalize w (snd child)) = Ok tt ->
        outcome (nextflow_runtime w pvc_name p s)
          = Raise (CalledProcessError (fst child) argv))
    /\ (forall e',
          outcome (finalize w (snd child)) = Raise e' ->
          outcome (nextflow_runtime w pvc_name p s) = Raise e')
    /\ outcome (nextflow_runtime w pvc_name p s) <> Ok tt.
Proof.
  intros argv child_env staged child Hstaged Hcode.
  rewrite nextflow_runtime_run, launch_body_run. cbn zeta.
  fold argv child_env staged child. rewrite Hstaged.
  cbn [trace workdir outcome].
  destruct (decide (fst child = 0)) as [Hzero | _]; [done |].
  exists [ EvCopytree "/root" shared_dir;
           EvPrint "Launching Nextflow Runtime";
           EvPrint (String.concat " " argv);
           EvPrint "" ].
  destruct (decide (is_Some (alist_lookup ".nextflow.log" (snd child))))
    as [Hlog | Hlog].
  - destruct (finalize_lookup w (snd child) Hlog) as [rest' Htrace].
    exists (EvGetExecutionName :: rest'). rewrite Htrace. split_and!.
    + reflexivity.
    + intros _. by exists rest'.
    + intros Hno. by destruct Hno.
    + intros ->. reflexivity.
    + intros e' ->. reflexivity.
    + by destruct (outcome (finalize w (snd child))).
  - rewrite (finalize_no_log w (snd child) Hlog). cbn [trace outcome].
    exists []. split_and!; try done.
Qed.

(** The amended C4 when the child exits 1. *)
Lemma C4_witness :
  exists before rest,
    trace (nextflow_runtime lookup_fails_world "pvc-1" plain_params []) =
      before
      ++ [ EvSpawn (cmd bare_when_true plain_params)
             (env sample_environ "pvc-1") shared_dir;
           EvPrint ""; EvExists nextflow_log ]
      ++ rest
    /\ outcome (nextflow_runtime lookup_fails_world "pvc-1" plain_params [])
       <> Ok tt.
Proof.
  destruct (C4_finalize_runs_after_failed_child lookup_fails_world "pvc-1"
              plain_params [] eq_refl)
    as (before & rest & Htrace & _ & _ & _ & _ & Hout).
  - vm_compute. discriminate.
  - exists before, rest. split; [exact Htrace | exact Hout].
Defined.

(** * Further properties *)

(** ** Provisioning: failures that are not HTTP statuses *)

(** X1. When [requests.post] itself raises (the service cannot be reached),
    the workflow ends with that exception right after the request: nothing
    is staged, no child is started, the working directory is untouched. *)
Theorem X1_request_failure_propagates w p s token e :
  os_environ w !! "FLYTE_INTERNAL_EXECUTION_ID" = Some token ->
  requests_post w provision_url (headers token) provision_json = Raise e ->
  nf_nf_core_viralintegration w p s =
    mkRun [ EvPrint "Provisioning shared storage volume... ";
            EvHttpPost provision_url (headers token) provision_json ]
      s (Raise e).
Proof.
  intros Htoken Hpost. rewrite workflow_run, initialize_run, Htoken.
  cbn zeta. by rewrite Hpost.
Qed.

Lemma X1_witness :
  outcome (nf_nf_core_viralintegration offline_world plain_params [])
    = Raise (Raised "connection refused").
Proof.
  rewrite (X1_request_failure_propagates offline_world plain_params []
             "tok" (Raised "connection refused") eq_refl eq_refl).
  reflexivity.
Defined.

(** X2. When the service answers with a status that is not an error but
    with a body from which no name can be taken, the workflow ends right
    after [Done.] is printed, and nothing is staged or started: with
    [JSONDecodeError] for a body that is not JSON, with [KeyError 'name']
    for a JSON object without a [name], and with [TypeError] for any other
    JSON value (an array, a string, a number, [null]) and for an object
    whose [name] is not a string. *)
Theorem X2_malformed_response_aborts w p s token resp :
  os_environ w !! "FLYTE_INTERNAL_EXECUTION_ID" = Some token ->
  requests_post w provision_url (headers token) provision_json = Ok resp ->
  is_error_status (status_code resp) = false ->
  let ends_with e :=
    nf_nf_core_viralintegration w p s =
      mkRun [ EvPrint "Provisioning shared storage volume... ";
              EvHttpPost provision_url (headers token) provision_json;
              EvPrint "Done." ]
        s (Raise e) in
  (json_body resp = None -> ends_with JSONDecodeError)
  /\ (forall obj,
        json_body resp = Some (JObject obj) ->
        alist_lookup "name" obj = None ->
        ends_with (KeyError "name"))
  /\ (forall v,
        json_body resp = Some v ->
        (forall obj, v <> JObject obj) ->
        ends_with TypeError)
  /\ (forall obj v,
        json_body resp = Some (JObject obj) ->
        alist_lookup "name" obj = Some v ->
        (forall name, v <> JString name) ->
        ends_with TypeError).
Proof.
  intros Htoken Hpost Hstatus ends_with.
  assert (forall e,
            outcome (returned_name resp s) = Raise e -> ends_with e) as Hends.
  { intros e He. unfold ends_with.
    rewrite workflow_run, initialize_run, Htoken. cbn zeta.
    rewrite Hpost, Hstatus. cbn [outcome]. by rewrite He. }
  unfold returned_name, json_name, returns_str, mbind, M_bind, bind in Hends.
  split_and!.
  - intros Hbody. apply Hends. by rewrite Hbody.
  - intros obj Hbody Hname. apply Hends. by rewrite Hbody, Hname.
  - intros v Hbody Hv. apply Hends. rewrite Hbody.
    destruct v as [| b | l | t | items | members]; try reflexivity.
    by destruct (Hv members).
  - intros obj v Hbody Hname Hv. apply Hends. rewrite Hbody, Hname.
    cbn [ret outcome workdir].
    destruct v as [| b | l | t | items | members]; try reflexivity.
    by destruct (Hv t).
Qed.

Lemma X2_witness :
  outcome (nf_nf_core_viralintegration not_json_world plain_params [])
    = Raise JSONDecodeError
  /\ outcome (nf_nf_core_viralintegration nameless_world plain_params [])
     = Raise (KeyError "name")
  /\ outcome (nf_nf_core_viralintegration array_world plain_params [])
     = Raise TypeError
  /\ outcome (nf_nf_core_viralintegration null_name_world plain_params [])
     = Raise TypeError.
Proof.
  split_and!.
  - rewrite (proj1 (X2_malformed_response_aborts not_json_world plain_params
                      [] "tok" (mkResponse 200 None) eq_refl eq_refl eq_refl)
               eq_refl).
    reflexivity.
  - rewrite (proj1 (proj2 (X2_malformed_response_aborts nameless_world
                             plain_params [] "tok"
                             (mkResponse 200
                                (Some (JObject [ ("id", JString "pvc-1") ])))
                             eq_refl eq_refl eq_refl))
               [ ("id", JString "pvc-1") ] eq_refl eq_refl).
    reflexivity.
  - rewrite (proj1 (proj2 (proj2 (X2_malformed_response_aborts array_world
                                    plain_params [] "tok"
                                    (mkResponse 200 (Some (JArray [])))
                                    eq_refl eq_refl eq_refl)))
               (JArray []) eq_refl);
      [reflexivity | discriminate].
  - rewrite (proj2 (proj2 (proj2 (X2_malformed_response_aborts null_name_world
                                    plain_params [] "tok"
                                    (mkResponse 200
                                       (Some (JObject [ ("name", JNull) ])))
                                    eq_refl eq_refl eq_refl)))
               [ ("name", JNull) ] JNull eq_refl eq_refl);
      [reflexivity | discriminate].
Defined.

(** X3. The name that the provisioning service returns is the value of
    K8S_STORAGE_CLAIM_NAME in the environment of the child: when the token
    is present, the answer is not an error and carries a name, and the copy
    succeeds, the workflow starts the child with [env] built from that
    name. *)
Theorem X3_volume_name_reaches_child w p s token resp obj name :
  os_environ w !! "FLYTE_INTERNAL_EXECUTION_ID" = Some token ->
  requests_post w provision_url (headers token) provision_json = Ok resp ->
  is_error_status (status_code resp) = false ->
  json_body resp = Some (JObject obj) ->
  alist_lookup "name" obj = Some (JString name) ->
  snd (stage_tree (root_tree w) s) = [] ->
  In (EvSpawn (cmd (bool_flag w) p) (env (os_environ w) name) shared_dir)
    (trace (nf_nf_core_viralintegration w p s))
  /\ env (os_environ w) name !! "K8S_STORAGE_CLAIM_NAME" = Some name.
Proof.
  intros Htoken Hpost Hstatus Hbody Hname Hstaged. split.
  - rewrite workflow_run, initialize_run, Htoken. cbn zeta.
    rewrite Hpost, Hstatus. cbn [outcome].
    rewrite (proj2 (returned_name_ok resp s name))
      by (by exists obj).
    cbn [outcome trace workdir].
    rewrite nextflow_runtime_run, launch_body_run. cbn zeta.
    rewrite Hstaged. cbn [trace].
    rewrite !in_app_iff. right. left. cbn [In]. tauto.
  - unfold env. rewrite lookup_insert_ne by discriminate.
    apply lookup_insert_eq.
Qed.

Lemma X3_witness :
  In (EvSpawn (cmd bare_when_true genome_params) (env sample_environ "pvc-1")
        shared_dir)
    (trace (nf_nf_core_viralintegration happy_world genome_params []))
  /\ env sample_environ "pvc-1" !! "K8S_STORAGE_CLAIM_NAME" = Some "pvc-1".
Proof.
  apply (X3_volume_name_reaches_child happy_world genome_params [] "tok"
           (mkResponse 200 (Some (JObject [ ("name", JString "pvc-1") ])))
           [ ("name", JString "pvc-1") ] "pvc-1");
    reflexivity.
Defined.

(** [finalize] leaves the working directory as it is, sends no request and
    starts no process. *)
Lemma finalize_workdir w s : workdir (finalize w s) = s.
Proof.
  rewrite finalize_run. cbn zeta.
  destruct (bool_decide _); [| done].
  by destruct (_get_execution_name w) as [[name |] | e].
Qed.

Lemma finalize_filter_spawn w s :
  filter (fun ev => is_spawn ev = true) (trace (finalize w s)) = [].
Proof.
  rewrite finalize_run. cbn zeta.
  destruct (bool_decide _); [| done].
  by destruct (_get_execution_name w) as [[name |] | e].
Qed.

(** X4. A run of the workflow calls [requests.post] exactly once when the
    token is present, for the provisioning request, and not at all when it
    is not: the provisioning request is never repeated, whatever the
    answer. (The name lookup and the upload of the [finally] suite go
    through other collaborators and are not counted here.) *)
Theorem X4_provisioning_requested_once w p s :
  filter (fun ev => is_post ev = true)
    (trace (nf_nf_core_viralintegration w p s))
  = match os_environ w !! "FLYTE_INTERNAL_EXECUTION_ID" with
    | Some token => [EvHttpPost provision_url (headers token) provision_json]
    | None => []
    end.
Proof.
  rewrite workflow_run. cbn zeta.
  assert (filter (fun ev => is_post ev = true) (trace (initialize w s))
          = match os_environ w !! "FLYTE_INTERNAL_EXECUTION_ID" with
            | Some token =>
                [EvHttpPost provision_url (headers token) provision_json]
            | None => []
            end) as Hinit.
  { rewrite initialize_run.
    destruct (os_environ w !! _) as [token |]; [| done]. cbn zeta.
    destruct (requests_post w _ _ _) as [resp | e]; [| done].
    by destruct (is_error_status _). }
  destruct (outcome (initialize w s)) as [pvc_name | e]; cbn [trace];
    [| exact Hinit].
  by rewrite filter_app, runtime_no_post, app_nil_r.
Qed.

(** X5. [nextflow_runtime] starts at most one child process: exactly one,
    with [cmd], [env] and the staged directory, when the copy raised no
    error, and none when it did. *)
Theorem X5_at_most_one_child w pvc_name p s :
  filter (fun ev => is_spawn ev = true)
    (trace (nextflow_runtime w pvc_name p s))
  = match snd (stage_tree (root_tree w) s) with
    | [] => [EvSpawn (cmd (bool_flag w) p) (env (os_environ w) pvc_name)
               shared_dir]
    | _ :: _ => []
    end.
Proof.
  rewrite nextflow_runtime_run, launch_body_run. cbn zeta. cbn [trace].
  rewrite filter_app, finalize_filter_spawn, app_nil_r.
  by destruct (snd (stage_tree _ _)).
Qed.

(** ** The [finally] suite, case by case *)

(** X6. [finalize] raises exactly when the log exists and either the
    execution name lookup raises, or the name resolves and the upload
    raises; the exception is the one of the lookup or of the upload. A
    missing log and an unresolved name are not errors. *)
Theorem X6_finalize_raises_iff w s e :
  outcome (finalize w s) = Raise e
  <-> is_Some (alist_lookup ".nextflow.log" s)
      /\ (_get_execution_name w = Raise e
          \/ exists name,
               _get_execution_name w = Ok (Some name)
               /\ upload_from w (remote_log w name) nextflow_log = Raise e).
Proof.
  rewrite finalize_run. cbn zeta.
  case_bool_decide as Hlog; [| cbn [outcome]; split; [done | by intros [? _]]].
  destruct (_get_execution_name w) as [[name |] | e0]; cbn [outcome]; split.
  - intros Hup. split; [done |]. right. by exists name.
  - intros [_ [Hraise | (name' & [= <-] & Hup)]]; [done | exact Hup].
  - done.
  - intros [_ [Hraise | (name' & Hname & _)]]; done.
  - intros [= <-]. split; [done | by left].
  - intros [_ [[= <-] | (name' & Hname & _)]]; done.
Qed.

Lemma X6_witness :
  outcome (finalize upload_fails_world [ (".nextflow.log", DFile "log") ])
    = Raise (Raised "upload failed").
Proof.
  apply (X6_finalize_raises_iff upload_fails_world
           [ (".nextflow.log", DFile "log") ] (Raised "upload failed")).
  split; [by eexists |]. right. by exists "exec-1".
Defined.

(** X7. If the log does not exist when the [try] suite ends, [finalize]
    does nothing beyond the check: no name lookup, no upload, no error.
    The run ends as the [try] suite did, with the same outcome and the
    same working directory. *)
Theorem X7_missing_log_is_not_an_error w pvc_name p s :
  ~ is_Some (alist_lookup ".nextflow.log"
               (workdir (launch_body w pvc_name p s))) ->
  nextflow_runtime w pvc_name p s =
    mkRun (trace (launch_body w pvc_name p s)
           ++ [EvPrint ""; EvExists nextflow_log])
      (workdir (launch_body w pvc_name p s))
      (outcome (launch_body w pvc_name p s)).
Proof.
  intros Hlog. rewrite nextflow_runtime_run. cbn zeta.
  by rewrite (finalize_no_log _ _ Hlog).
Qed.

Lemma X7_witness :
  outcome (nextflow_runtime no_log_world "pvc-1" plain_params [])
    = Raise (CalledProcessError 3 (cmd bare_when_true plain_params))
  /\ ~ In EvGetExecutionName
         (trace (nextflow_runtime no_log_world "pvc-1" plain_params [])).
Proof.
  rewrite (X7_missing_log_is_not_an_error no_log_world "pvc-1" plain_params []).
  - split; [reflexivity |]. cbn. intros H.
    repeat (destruct H as [H | H]; [discriminate H |]). exact H.
  - intros [d Hd]. discriminate Hd.
Defined.

(** X8. If the log exists but the execution name does not resolve
    ([_get_execution_name] returns [None]), the upload is skipped with a
    message and without an error: the run ends as the [try] suite did. *)
Theorem X8_unresolved_name_skips_upload w pvc_name p s :
  is_Some (alist_lookup ".nextflow.log"
             (workdir (launch_body w pvc_name p s))) ->
  _get_execution_name w = Ok None ->
  nextflow_runtime w pvc_name p s =
    mkRun (trace (launch_body w pvc_name p s)
           ++ [ EvPrint ""; EvExists nextflow_log; EvGetExecutionName;
                EvPrint "Skipping logs upload, failed to get execution name" ])
      (workdir (launch_body w pvc_name p s))
      (outcome (launch_body w pvc_name p s)).
Proof.
  intros Hlog Hname. rewrite nextflow_runtime_run. cbn zeta.
  rewrite finalize_run. cbn zeta.
  rewrite bool_decide_eq_true_2 by done. by rewrite Hname.
Qed.

Lemma X8_witness :
  outcome (nextflow_runtime unnamed_world "pvc-1" plain_params []) = Ok tt.
Proof.
  rewrite (X8_unresolved_name_skips_upload unnamed_world "pvc-1"
             plain_params []).
  - reflexivity.
  - by eexists.
  - reflexivity.
Defined.

(** X9. The log is uploaded exactly when it exists after the [try] suite
    and the execution name resolves, and then once, from the log path to
    [urljoins] of the fixed prefix, the name and [nextflow.log]; this does
    not depend on whether the child succeeded. *)
Theorem X9_upload_iff w pvc_name p s local remote :
  In (EvUpload local remote) (trace (nextflow_runtime w pvc_name p s))
  <-> is_Some (alist_lookup ".nextflow.log"
                 (workdir (launch_body w pvc_name p s)))
      /\ exists name,
           _get_execution_name w = Ok (Some name)
           /\ local = nextflow_log
           /\ remote =
                urljoins w
                  [ "latch:///your_log_dir/nf_nf_core_viralintegration";
                    name; "nextflow.log" ].
Proof.
  rewrite nextflow_runtime_run. cbn zeta. cbn [trace]. rewrite in_app_iff.
  assert (~ In (EvUpload local remote) (trace (launch_body w pvc_name p s)))
    as Hbody.
  { rewrite launch_body_run. cbn zeta.
    destruct (snd (stage_tree _ _)); cbn [trace In]; intros H;
      repeat (destruct H as [H | H]; [discriminate H |]); exact H. }
  rewrite finalize_run. cbn zeta. fold (remote_log w).
  case_bool_decide as Hlog.
  - destruct (_get_execution_name w) as [[name |] | e0]; cbn [trace app In].
    + split.
      * intros [H | H]; [done |].
        repeat (destruct H as [H | H]; [try discriminate H |]); [| done].
        injection H as <- <-. split; [done |]. by exists name.
      * intros (_ & name' & [= <-] & -> & ->). right. tauto.
    + split.
      * intros [H | H]; [done |].
        repeat (destruct H as [H | H]; [discriminate H |]). done.
      * intros (_ & name' & Hname & _). discriminate Hname.
    + split.
      * intros [H | H]; [done |].
        repeat (destruct H as [H | H]; [discriminate H |]). done.
      * intros (_ & name' & Hname & _). discriminate Hname.
  - cbn [trace In]. split.
    + intros [H | H]; [done |].
      repeat (destruct H as [H | H]; [discriminate H |]). done.
    + intros [? _]. done.
Qed.

Lemma X9_witness :
  In (EvUpload "/nf-workdir/.nextflow.log"
        "latch:///your_log_dir/nf_nf_core_viralintegration/exec-1/nextflow.log")
    (trace (nextflow_runtime upload_fails_world "pvc-1" plain_params [])).
Proof.
  apply (X9_upload_iff upload_fails_world "pvc-1" plain_params []).
  split; [by eexists |]. exists "exec-1". by repeat split.
Defined.

(** X10. [nextflow_runtime] returns normally exactly when the copy raised
    no error, the child exited with code 0 and [finalize] completed. *)
Theorem X10_runtime_succeeds_iff w pvc_name p s :
  let staged := stage_tree (root_tree w) s in
  let child :=
    child_process w (cmd (bool_flag w) p) (env (os_environ w) pvc_name)
      shared_dir (fst staged) in
  outcome (nextflow_runtime w pvc_name p s) = Ok tt
  <-> snd staged = []
      /\ fst child = 0
      /\ outcome (finalize w (snd child)) = Ok tt.
Proof.
  intros staged child.
  rewrite nextflow_runtime_run, launch_body_run. cbn zeta.
  fold staged child. cbn [outcome].
  destruct (snd staged) as [| err errs]; cbn [outcome workdir].
  - destruct (outcome (finalize w (snd child))) as [[] | e'].
    + destruct (decide (fst child = 0)); split; try done.
      by intros (_ & ? & _).
    + split; [done | by intros (_ & _ & ?)].
  - destruct (outcome (finalize w (fst staged))) as [[] | e'];
      split; try done; by intros (? & _).
Qed.

Lemma X10_witness :
  outcome (nextflow_runtime happy_world "pvc-1" plain_params []) = Ok tt.
Proof.
  apply (X10_runtime_succeeds_iff happy_world "pvc-1" plain_params []).
  by repeat split.
Defined.

(** X11. If the copy raises, no child is started, but the [finally] suite
    still runs, on the directory as the copy left it: the log is looked
    for, and the run ends with [shutil.Error] and the list of copy errors
    unless [finalize] itself raises. *)
Theorem X11_failed_copy_skips_child w pvc_name p s :
  snd (stage_tree (root_tree w) s) <> [] ->
  let staged := fst (stage_tree (root_tree w) s) in
  nextflow_runtime w pvc_name p s =
    mkRun (EvCopytree "/root" shared_dir :: trace (finalize w staged)) staged
      (match outcome (finalize w staged) with
       | Raise e' => Raise e'
       | Ok _ => Raise (ShutilError (snd (stage_tree (root_tree w) s)))
       end).
Proof.
  intros Herrs staged.
  rewrite nextflow_runtime_run, launch_body_run. cbn zeta.
  destruct (snd (stage_tree (root_tree w) s)) as [| err errs] eqn:Hsnd;
    [done |].
  cbn [trace workdir outcome app]. fold staged.
  by rewrite finalize_workdir.
Qed.

Lemma X11_witness :
  nextflow_runtime pipe_world "pvc-1" plain_params [] =
    mkRun [ EvCopytree "/root" shared_dir; EvPrint "";
            EvExists nextflow_log ]
      [ ("main.nf", DFile "workflow {}") ]
      (Raise (ShutilError
                [ ("/root/fifo", "/nf-workdir/fifo", SpecialFileError) ])).
Proof.
  rewrite (X11_failed_copy_skips_child pipe_world "pvc-1" plain_params []).
  - reflexivity.
  - discriminate.
Defined.

(** ** Staging: what the copy writes, what it leaves, when it fails *)

Lemma alist_lookup_set_eq {A} k (v : A) l :
  alist_lookup k (alist_set k v l) = Some v.
Proof.
  induction l as [| [k' v'] l IH]; cbn.
  - by rewrite decide_True.
  - destruct (decide (k = k')) as [-> | Hne]; cbn.
    + by rewrite decide_True.
    + by rewrite decide_False.
Qed.

Lemma alist_lookup_set_ne {A} k k' (v : A) l :
  k <> k' -> alist_lookup k (alist_set k' v l) = alist_lookup k l.
Proof.
  intros Hne. induction l as [| [k'' v''] l IH]; cbn.
  - by rewrite decide_False.
  - destruct (decide (k' = k'')) as [<- | Hne']; cbn.
    + by rewrite !decide_False.
    + destruct (decide (k = k'')); [done | exact IH].
Qed.

Lemma lookup_put_ne k name o (d : dentries) :
  k <> name -> alist_lookup k (put name o d) = alist_lookup k d.
Proof.
  intros Hne. destruct o as [x |]; cbn [put]; [| done].
  by apply alist_lookup_set_ne.
Qed.

(** The copy of one entry removes nothing: if nothing is at the name
    afterwards, nothing was there before. *)
Lemma copy_entry_fst_none ign dangling_flag n :
  forall followed src dst name old,
    fst (copy_entry ign dangling_flag followed src dst name n old) = None ->
    old = None.
Proof.
  induction n as [data | es IH | linkto te | linkto te r IH |]
    using node_nested_ind;
    intros followed src dst name old; cbn [copy_entry].
  - destruct old as [[? | d] |]; try done.
    by destruct (alist_lookup name d) as [[? | ?] |].
  - by destruct old as [[? | ?] |].
  - by destruct (negb followed && negb te && dangling_flag).
  - destruct (negb followed && negb te && dangling_flag); [done | apply IH].
  - done.
Qed.

Lemma lookup_put_eq ign dangling_flag followed src dst name c (d : dentries) :
  alist_lookup name
    (put name
       (fst (copy_entry ign dangling_flag followed src dst name c
               (alist_lookup name d))) d)
  = fst (copy_entry ign dangling_flag followed src dst name c
           (alist_lookup name d)).
Proof.
  destruct (fst (copy_entry _ _ _ _ _ _ c (alist_lookup name d)))
    as [x |] eqn:Hc; cbn [put].
  - apply alist_lookup_set_eq.
  - by apply copy_entry_fst_none in Hc.
Qed.

(** The loop never touches a name that it skips or that the source
    directory does not have. *)
Lemma copy_loop_frame f ignored es :
  forall d name,
    name ∈ ignored \/ name ∉ map fst es ->
    alist_lookup name (fst (copy_loop f ignored es d)) = alist_lookup name d.
Proof.
  induction es as [| [name' c] es IH]; intros d name Hname; [done |].
  cbn [copy_loop]. case_bool_decide as Hign.
  - apply IH. destruct Hname as [? | Hnot]; [by left | right].
    cbn in Hnot. by apply not_elem_of_cons in Hnot as [_ ?].
  - cbn [fst]. rewrite IH.
    + apply lookup_put_ne. destruct Hname as [Hin | Hnot]; [congruence |].
      cbn in Hnot. by apply not_elem_of_cons in Hnot as [? _].
    + destruct Hname as [? | Hnot]; [by left | right].
      cbn in Hnot. by apply not_elem_of_cons in Hnot as [_ ?].
Qed.

(** With unique names, what ends up at the name of an entry is what the
    copy of that entry made of what was there at the start, and if the
    loop collected no error, neither did that copy. *)
Lemma copy_loop_entry ign dangling_flag src dst ignored es :
  NoDup (map fst es) ->
  forall d name c,
    In (name, c) es ->
    name ∉ ignored ->
    let f := fun name child o =>
               copy_entry ign dangling_flag false (os_path_join src name)
                 (os_path_join dst name) name child o in
    alist_lookup name (fst (copy_loop f ignored es d))
    = fst (f name c (alist_lookup name d))
    /\ (snd (copy_loop f ignored es d) = [] ->
        snd (f name c (alist_lookup name d)) = []).
Proof.
  intros Hnodup. induction es as [| [name' c'] es IH];
    intros d name c Hin Hign f; [destruct Hin |].
  cbn [map fst] in Hnodup. apply NoDup_cons in Hnodup as [Hfresh Hnodup].
  cbn [copy_loop]. destruct Hin as [[= -> ->] | Hin].
  - rewrite bool_decide_eq_false_2 by done. cbn [fst snd]. split.
    + rewrite copy_loop_frame by (by right). apply lookup_put_eq.
    + intros Herr. by apply app_eq_nil in Herr as [? _].
  - assert (name <> name') as Hne.
    { intros ->. apply Hfresh, list_elem_of_In, in_map_iff.
      by exists (name', c). }
    case_bool_decide as Hign'.
    + by apply IH.
    + cbn [fst snd].
      destruct (IH Hnodup
                  (put name' (fst (f name' c' (alist_lookup name' d))) d)
                  name c Hin Hign) as [Hlook Herr].
      rewrite lookup_put_ne in Hlook, Herr by done. split; [exact Hlook |].
      intros Hnil. apply app_eq_nil in Hnil as [_ Hnil]. by apply Herr.
Qed.

(** What a followed link resolves to, when that is a regular file, is
    copied by content, without error, unless a directory is in the way. *)
Lemma copy_entry_resolved_file ign dangling_flag n data :
  resolved_file n = Some data ->
  forall src dst name old,
    (forall d, old <> Some (DDir d)) ->
    copy_entry ign dangling_flag true src dst name n old
    = (Some (DFile data), []).
Proof.
  induction n as [data' | es IH | linkto te | linkto te r IH |]
    using node_nested_ind;
    cbn [resolved_file copy_entry negb andb]; try discriminate.
  - intros [= ->] src dst name old Hold. destruct old as [[? | d] |]; try done.
    by destruct (Hold d).
  - auto.
Qed.

(** A regular file, or a link with an existing text that resolves to one,
    is copied by content, without error, unless a directory is in the
    way. *)
Lemma copy_entry_file ign dangling_flag n data :
  file_content n = Some data ->
  forall src dst name old,
    (forall d, old <> Some (DDir d)) ->
    copy_entry ign dangling_flag false src dst name n old
    = (Some (DFile data), []).
Proof.
  destruct n as [data' | es | linkto [|] [r |] |];
    cbn [file_content]; try discriminate.
  - intros [= ->] src dst name old Hold. cbn [copy_entry].
    destruct old as [[? | d] |]; try done. by destruct (Hold d).
  - intros Hfile src dst name old Hold. cbn [copy_entry negb andb].
    by apply copy_entry_resolved_file.
Qed.

(** X12. Staging merges into the working directory: an entry of the
    working directory whose name is on the denylist, or is not the name of
    an entry of [/root], is left exactly as it was; nothing is removed. *)
Theorem X12_staging_leaves_other_entries root old name :
  name ∈ ignore_list \/ name ∉ map fst root ->
  alist_lookup name (fst (stage_tree root old)) = alist_lookup name old.
Proof. intros Hname. unfold stage_tree, copytree. by apply copy_loop_frame. Qed.

Lemma X12_witness :
  alist_lookup "work"
    (fst (stage_tree sample_root [ ("work", DDir [ ("7f", DFile "task") ]) ]))
  = Some (DDir [ ("7f", DFile "task") ]).
Proof.
  rewrite (X12_staging_leaves_other_entries sample_root
             [ ("work", DDir [ ("7f", DFile "task") ]) ] "work").
  - reflexivity.
  - left. unfold ignore_list. set_solver.
Defined.

(** X13. Every entry of [/root] that is a regular file, or a link with an
    existing text that resolves to one, and whose name is not on the
    denylist, is in the working directory after staging as a regular file
    with the same content, provided no directory of that name was in the
    way: links are followed, not recreated. *)
Theorem X13_files_are_copied_by_content root old name n data :
  NoDup (map fst root) ->
  In (name, n) root ->
  file_content n = Some data ->
  name ∉ ignore_list ->
  (forall d, alist_lookup name old <> Some (DDir d)) ->
  alist_lookup name (fst (stage_tree root old)) = Some (DFile data).
Proof.
  intros Hnodup Hin Hfile Hname Hold. unfold stage_tree, copytree.
  destruct (copy_loop_entry (fun _ _ => ignore_list) true "/root" shared_dir
              ignore_list root Hnodup old name n Hin Hname) as [-> _].
  cbn zeta. by rewrite (copy_entry_file _ _ n data Hfile).
Qed.

Lemma X13_witness :
  alist_lookup "main.nf" (fst (stage_tree sample_root []))
  = Some (DFile "workflow {}").
Proof.
  apply (X13_files_are_copied_by_content sample_root [] "main.nf"
           (File "workflow {}") "workflow {}").
  - cbn. repeat (apply NoDup_cons; split; [set_solver |]). apply NoDup_nil_2.
  - by left.
  - reflexivity.
  - unfold ignore_list. set_solver.
  - intros d. discriminate.
Defined.

(** The errors of the copy of an entry that the loop does not skip are
    among the errors of the loop. *)
Lemma copy_loop_errors f ignored es :
  forall d name c err,
    In (name, c) es ->
    name ∉ ignored ->
    (forall o, In err (snd (f name c o))) ->
    In err (snd (copy_loop f ignored es d)).
Proof.
  induction es as [| [name' c'] es IH]; intros d name c err Hin Hign Herr;
    [destruct Hin |].
  cbn [copy_loop]. destruct Hin as [[= -> ->] | Hin].
  - rewrite bool_decide_eq_false_2 by done. cbn [snd].
    apply in_app_iff. left. apply Herr.
  - case_bool_decide; [by eapply IH |].
    cbn [snd]. apply in_app_iff. right. by eapply IH.
Qed.

(** X14. A special file (a named pipe) in [/root] whose name is not on the
    denylist makes the copy fail: its error is in the list that
    [shutil.Error] carries, no child process is started, and the run does
    not return normally. *)
Theorem X14_special_file_aborts_launch w pvc_name p s name :
  In (name, Special) (root_tree w) ->
  name ∉ ignore_list ->
  In (os_path_join "/root" name, os_path_join shared_dir name,
      SpecialFileError)
    (snd (stage_tree (root_tree w) s))
  /\ (forall argv e cwd,
        ~ In (EvSpawn argv e cwd) (trace (nextflow_runtime w pvc_name p s)))
  /\ outcome (nextflow_runtime w pvc_name p s) <> Ok tt.
Proof.
  intros Hin Hname.
  assert (In (os_path_join "/root" name, os_path_join shared_dir name,
              SpecialFileError)
            (snd (stage_tree (root_tree w) s))) as Herr.
  { unfold stage_tree, copytree.
    apply (copy_loop_errors _ _ _ _ name Special); [done | done |].
    intros o. by left. }
  split; [exact Herr | split].
  - intros argv e cwd Hspawn.
    apply spawn_in_runtime in Hspawn as [Hnil _].
    rewrite Hnil in Herr. destruct Herr.
  - rewrite nextflow_runtime_run, launch_body_run. cbn zeta.
    destruct (snd (stage_tree (root_tree w) s)) as [| err errs];
      [destruct Herr |].
    cbn [outcome workdir]. by destruct (outcome (finalize w _)).
Qed.

Lemma X14_witness :
  In ("/root/fifo", "/nf-workdir/fifo", SpecialFileError)
    (snd (stage_tree pipe_root []))
  /\ outcome (nextflow_runtime pipe_world "pvc-1" plain_params []) <> Ok tt.
Proof.
  destruct (X14_special_file_aborts_launch pipe_world "pvc-1" plain_params []
              "fifo") as (Herr & _ & Hout).
  - right. by left.
  - unfold ignore_list. set_solver.
  - split; [exact Herr | exact Hout].
Defined.

(** *** Staging again *)

Lemma unique_names_Dir es :
  unique_names (Dir es) = true ->
  NoDup (map fst es)
  /\ Forall (fun e : string * node => unique_names (snd e) = true) es.
Proof.
  cbn [unique_names]. rewrite andb_true_iff, bool_decide_eq_true.
  intros [Hnodup Hall]. split; [exact Hnodup |].
  apply Forall_forall. intros e He.
  rewrite forallb_forall in Hall. apply Hall. by apply list_elem_of_In.
Qed.

(** A loop whose every copy leaves what it finds, without error, leaves
    the directory as it is. *)
Lemma copy_loop_fixed f ignored es d :
  (forall name c,
     In (name, c) es -> name ∉ ignored ->
     f name c (alist_lookup name d) = (alist_lookup name d, [])) ->
  copy_loop f ignored es d = (d, []).
Proof.
  induction es as [| [name c] es IH]; intros Hfix; [done |].
  cbn [copy_loop]. case_bool_decide as Hign.
  - apply IH. intros name' c' Hin. apply Hfix. by right.
  - rewrite (Hfix name c) by (by left || done). cbn [fst snd app].
    rewrite put_lookup, IH; [done |].
    intros name' c' Hin. apply Hfix. by right.
Qed.

(** Copying an entry again over what its copy left changes nothing and
    raises nothing, when the first copy raised nothing. *)
Lemma copy_entry_again ign dangling_flag n :
  unique_names n = true ->
  forall followed src dst name old,
    snd (copy_entry ign dangling_flag followed src dst name n old) = [] ->
    copy_entry ign dangling_flag followed src dst name n
      (fst (copy_entry ign dangling_flag followed src dst name n old))
    = (fst (copy_entry ign dangling_flag followed src dst name n old), []).
Proof.
  induction n as [data | es IH | linkto te | linkto te r IH |]
    using node_nested_ind;
    intros Huniq followed src dst name old; cbn [copy_entry].
  - destruct old as [[? | d] |]; try done.
    destruct (alist_lookup name d) as [[? | ?] |] eqn:Hd; cbn [fst snd];
      try done; intros _;
      by rewrite alist_lookup_set_eq,
           (alist_set_same name (DFile data) (alist_set name (DFile data) d))
        by apply alist_lookup_set_eq.
  - apply unique_names_Dir in Huniq as [Hnodup Hall].
    set (f := fun name child o =>
                copy_entry ign dangling_flag false (os_path_join src name)
                  (os_path_join dst name) name child o).
    assert (forall d0,
              snd (copy_loop f (ign src (map fst es)) es d0) = [] ->
              copy_loop f (ign src (map fst es)) es
                (fst (copy_loop f (ign src (map fst es)) es d0))
              = (fst (copy_loop f (ign src (map fst es)) es d0), []))
      as Hloop.
    { intros d0 Hnil. apply copy_loop_fixed. intros nm c Hin Hign.
      destruct (copy_loop_entry ign dangling_flag src dst
                  (ign src (map fst es)) es Hnodup d0 nm c Hin Hign)
        as [Hlook Herr].
      cbn zeta in Hlook, Herr. fold f in Hlook, Herr. rewrite Hlook.
      rewrite Forall_forall in IH, Hall. unfold f.
      apply (IH (nm, c)); [by apply list_elem_of_In | | by apply Herr].
      apply (Hall (nm, c)). by apply list_elem_of_In. }
    destruct old as [[? | d0] |]; cbn [fst snd]; [done | |];
      intros Hnil; by rewrite (Hloop _ Hnil).
  - by destruct (negb followed && negb te && dangling_flag).
  - cbn [unique_names] in Huniq.
    destruct (negb followed && negb te && dangling_flag); [done |].
    by apply IH.
  - done.
Qed.

(** X15. Staging the same source tree a second time, over what a first
    staging without error left, changes nothing in the working directory
    and raises no error (names being unique within each directory of the
    source, as in any directory listing). *)
Theorem X15_staging_again_is_a_no_op root old :
  unique_names (Dir root) = true ->
  snd (stage_tree root old) = [] ->
  stage_tree root (fst (stage_tree root old))
  = (fst (stage_tree root old), []).
Proof.
  intros Huniq Hnil. unfold stage_tree, copytree in *.
  apply unique_names_Dir in Huniq as [Hnodup Hall].
  apply copy_loop_fixed. intros name c Hin Hign.
  destruct (copy_loop_entry (fun _ _ => ignore_list) true "/root" shared_dir
              ignore_list root Hnodup old name c Hin Hign) as [Hlook Herr].
  cbn zeta in Hlook, Herr. rewrite Hlook.
  rewrite Forall_forall in Hall.
  apply copy_entry_again; [| by apply Herr].
  apply (Hall (name, c)). by apply list_elem_of_In.
Qed.

Lemma X15_witness :
  stage_tree sample_root (fst (stage_tree sample_root []))
  = ([ ("main.nf", DFile "workflow {}");
       ("bin", DDir [ ("run.sh", DFile "#!/bin/sh") ]) ], []).
Proof.
  rewrite (X15_staging_again_is_a_no_op sample_root []); reflexivity.
Defined.

(** ** The whole workflow *)

(** X16. The workflow returns normally exactly when the token is present,
    the provisioning service answers with a status that is not an error
    and a JSON object whose [name] is a string, the copy raises no error,
    the child started with that name exits with code 0, and [finalize]
    completes. *)
Theorem X16_workflow_succeeds_iff w p s :
  outcome (nf_nf_core_viralintegration w p s) = Ok tt
  <-> exists token resp obj name,
        os_environ w !! "FLYTE_INTERNAL_EXECUTION_ID" = Some token
        /\ requests_post w provision_url (headers token) provision_json
           = Ok resp
        /\ is_error_status (status_code resp) = false
        /\ json_body resp = Some (JObject obj)
        /\ alist_lookup "name" obj = Some (JString name)
        /\ snd (stage_tree (root_tree w) s) = []
        /\ fst (child_process w (cmd (bool_flag w) p)
                  (env (os_environ w) name) shared_dir
                  (fst (stage_tree (root_tree w) s))) = 0
        /\ outcome
             (finalize w
                (snd (child_process w (cmd (bool_flag w) p)
                        (env (os_environ w) name) shared_dir
                        (fst (stage_tree (root_tree w) s))))) = Ok tt.
Proof.
  rewrite workflow_run, initialize_run. cbn zeta.
  assert (forall name,
            outcome (nextflow_runtime w name p s) = Ok tt
            <-> snd (stage_tree (root_tree w) s) = []
                /\ fst (child_process w (cmd (bool_flag w) p)
                          (env (os_environ w) name) shared_dir
                          (fst (stage_tree (root_tree w) s))) = 0
                /\ outcome
                     (finalize w
                        (snd (child_process w (cmd (bool_flag w) p)
                                (env (os_environ w) name) shared_dir
                                (fst (stage_tree (root_tree w) s))))) = Ok tt)
    as Hrun.
  { intros name. rewrite nextflow_runtime_run, launch_body_run. cbn zeta.
    cbn [outcome].
    destruct (snd (stage_tree (root_tree w) s)) as [| err errs];
      cbn [outcome workdir].
    - destruct (outcome (finalize w _)) as [[] | e'].
      + destruct (decide (_ = 0)); split; try done. by intros (_ & ? & _).
      + split; [done | by intros (_ & _ & ?)].
    - destruct (outcome (finalize w _)) as [[] | e'];
        split; try done; by intros (? & _). }
  destruct (os_environ w !! "FLYTE_INTERNAL_EXECUTION_ID") as [token |];
    [| split; [done | by intros (? & ? & ? & ? & ? & _)]].
  destruct (requests_post w _ _ _) as [resp | e] eqn:Hpost;
    [| split; [done | intros (? & ? & ? & ? & [= <-] & Hp & _);
                      by rewrite Hpost in Hp]].
  destruct (is_error_status (status_code resp)) eqn:Hstatus;
    [split; [done | intros (? & ? & ? & ? & [= <-] & Hp & Hs & _);
                    rewrite Hpost in Hp; injection Hp as <-; congruence] |].
  cbn [outcome].
  destruct (outcome (returned_name resp s)) as [name |e] eqn:Hret.
  - apply returned_name_ok in Hret as (obj & Hbody & Hname).
    cbn [outcome trace workdir]. rewrite Hrun. split.
    + intros (Hstaged & Hcode & Hfin). exists token, resp, obj, name.
      by repeat split.
    + intros (token' & resp' & obj' & name' & [= <-] & Hp & _ & Hb & Hn & Hok).
      rewrite Hpost in Hp. injection Hp as <-.
      rewrite Hbody in Hb. injection Hb as <-.
      rewrite Hname in Hn. injection Hn as <-. exact Hok.
  - cbn [outcome]. split; [done |].
    intros (token' & resp' & obj' & name' & [= <-] & Hp & _ & Hb & Hn & _).
    rewrite Hpost in Hp. injection Hp as <-.
    assert (outcome (returned_name resp s) = Ok name') as Hok
      by (apply returned_name_ok; by exists obj').
    congruence.
Qed.

Lemma X16_witness :
  outcome (nf_nf_core_viralintegration happy_world genome_params []) = Ok tt.
Proof.
  apply (X16_workflow_succeeds_iff happy_world genome_params []).
  exists "tok",
    (mkResponse 200 (Some (JObject [ ("name", JString "pvc-1") ]))),
    [ ("name", JString "pvc-1") ], "pvc-1".
  by repeat split.
Defined.

(** ** The command that is logged *)

(** X17. Whenever a child process is started, the line printed just before
    is its argument list joined with single spaces, and the run so far
    consists of the copy, that line and its two neighbours: the command in
    the log is the command that is run. *)
Theorem X17_logged_command_is_the_command_run w pvc_name p s argv e cwd :
  In (EvSpawn argv e cwd) (trace (nextflow_runtime w pvc_name p s)) ->
  exists after,
    trace (nextflow_runtime w pvc_name p s) =
      [ EvCopytree "/root" shared_dir;
        EvPrint "Launching Nextflow Runtime";
        EvPrint (String.concat " " argv);
        EvPrint "";
        EvSpawn argv e cwd ]
      ++ after.
Proof.
  intros Hspawn.
  apply spawn_in_runtime in Hspawn as (Hstaged & -> & -> & ->).
  rewrite nextflow_runtime_run, launch_body_run. cbn zeta.
  rewrite Hstaged. cbn [trace workdir]. by eexists.
Qed.

Lemma X17_witness :
  exists after,
    trace (nextflow_runtime happy_world "pvc-1" plain_params []) =
      [ EvCopytree "/root" shared_dir;
        EvPrint "Launching Nextflow Runtime";
        EvPrint
          ("/root/nextflow run /nf-workdir/main.nf -work-dir /nf-workdir "
           +:+ "-profile docker -c latch.config "
           +:+ "--input latch:///samplesheet.csv "
           +:+ "--viral_fasta latch:///virus.fasta "
           +:+ "--outdir latch:///results "
           +:+ "--min_reads 5 --max_hits 50 --remove_duplicates");
        EvPrint "";
        EvSpawn (cmd bare_when_true plain_params) (env sample_environ "pvc-1")
          shared_dir ]
      ++ after.
Proof.
  destruct (X17_logged_command_is_the_command_run happy_world "pvc-1"
              plain_params [] (cmd bare_when_true plain_params)
              (env sample_environ "pvc-1") shared_dir) as [after Htrace].
  - right. right. right. right. left. reflexivity.
  - exists after. exact Htrace.
Defined.
